(** * TEASER: type-element resolver and single-family-dwelling estimator

    A shallow embedding of

    - [data/input/buildingelement_input_json.py]
      ([load_type_element], [load_type_element_by_key], [_set_basic_data]),
    - [teaser/logic/archetypebuildings/bmvbs/singlefamilydwelling.py]
      ([SingleFamilyDwelling.__init__], [generate_archetype]),
    - [teaser/project.py] (the [name] setter, [calc_all_buildings]).

    Python objects are records, attribute assignment is functional update,
    [dict]s are association lists in insertion order, exceptions are the
    [Raise] branch of a result type.  Python [int]s are [Z].  Python
    [float]s are read as exact rationals [Q]: every statement below about
    areas and factors is a statement of exact arithmetic, binary rounding is
    outside the model. *)

From Stdlib Require Import ZArith QArith Qfield List Ascii String Bool Lia Lqa.
Import ListNotations.

Local Open Scope string_scope.
Local Open Scope Z_scope.
Local Open Scope list_scope.

(** ** Python exceptions, results and dictionaries *)

Module Py.

Inductive key : Type :=
| KStr (s : string)
| KNum (n : Z).

(** The exceptions the embedded code can raise. *)
Inductive exn : Type :=
| KeyError (k : key)            (* [d[k]] on a key the dict does not hold *)
| TypeError                     (* subscripting a [str] by a [str] *)
| AttributeError (a : string)   (* reading an attribute never assigned *)
| ZeroDivisionError.            (* [x / 0] *)

Inductive result (A : Type) : Type :=
| Ok (a : A)
| Raise (e : exn).
Arguments Ok {A} a.
Arguments Raise {A} e.

Definition bind {A B} (m : result A) (k : A -> result B) : result B :=
  match m with
  | Ok a => k a
  | Raise e => Raise e
  end.

(** [for x in items: body] over a state [s]; an exception leaves the loop. *)
Fixpoint for_ {A S} (items : list A) (body : A -> S -> result S) (s : S)
  : result S :=
  match items with
  | [] => Ok s
  | x :: rest => bind (body x s) (for_ rest body)
  end.

(** [d[k]] on a string-keyed dict. *)
Fixpoint get {V} (d : list (string * V)) (k : string) : result V :=
  match d with
  | [] => Raise (KeyError (KStr k))
  | (k', v) :: rest => if String.eqb k' k then Ok v else get rest k
  end.

(** [d[k]] on an optional member of a JSON object. *)
Definition member {V} (field : string) (v : option V) : result V :=
  match v with
  | Some x => Ok x
  | None => Raise (KeyError (KStr field))
  end.

(** [x / y] on numbers. *)
Definition div (x y : Q) : result Q :=
  if Qeq_bool y 0 then Raise ZeroDivisionError else Ok (x / y)%Q.

End Py.
Import Py.

Notation "x <- m ;; k" := (Py.bind m (fun x => k))
  (at level 61, m at next level, right associativity).

(** ** The database: type-element records and materials *)

(** One entry of a record's ["layer"] object:
    [{"thickness": .., "material": {"material_id": ..}}]. *)
Module LayerIn.
Record t : Type := mk {
  thickness : Q;
  material_id : Z
}.
End LayerIn.

(** One type-element record.  The age group, the technique tag, the inner
    coefficients and the layers are members of every record; the outer and
    the window coefficients are members of the records of some categories
    only. *)
Module ElementIn.
Record t : Type := mk {
  building_age_group : Z * Z;
  construction_type : string;
  inner_radiation : Q;
  inner_convection : Q;
  outer_radiation : option Q;
  outer_convection : option Q;
  g_value : option Q;
  a_conv : option Q;
  shading_g_total : option Q;
  shading_max_irr : option Q;
  layer : list (string * LayerIn.t)
}.
End ElementIn.

(** One record of the material table. *)
Module MaterialIn.
Record t : Type := mk {
  name : string;
  density : Q;
  thermal_conduc : Q;
  heat_capac : Q
}.
End MaterialIn.

(** A value of [element_bind]: the string stored under ["version"], or a
    type-element record. *)
Inductive entry : Type :=
| Version (v : string)
| TypeElement (element_in : ElementIn.t).

(** [entry["..."]]: a record can be subscripted by a member name, a string
    cannot. *)
Definition as_record (e : entry) : result ElementIn.t :=
  match e with
  | TypeElement element_in => Ok element_in
  | Version _ => Raise TypeError
  end.

Module DataClass.
Record t : Type := mk {
  element_bind : list (string * entry);
  material_bind : list (Z * MaterialIn.t)
}.
End DataClass.

(** ** The building model: materials, layers, elements *)

Module Material.
Record t : Type := mk {
  material_id : option Z;
  name : option string;
  density : option Q;
  thermal_conduc : option Q;
  heat_capac : option Q
}.
End Material.

(** Modelled from the spec: the constructor [Material(layer)] of class
    [Material], which is not among the sources; a new material holds no
    data and becomes the material of the layer it is created for. *)
Definition Material_new : Material.t :=
  Material.mk None None None None None.

Module Layer.
Record t : Type := mk {
  id : string;
  thickness : Q;
  material : Material.t
}.
End Layer.

Module BuildingElement.

(** The classes of building elements; [type(element).__name__] is the
    class name. *)
Inductive kind : Type :=
| OuterWall | InnerWall | Window | Rooftop
| GroundFloor | Ceiling | Floor | Door.

Definition class_name (k : kind) : string :=
  match k with
  | OuterWall => "OuterWall"
  | InnerWall => "InnerWall"
  | Window => "Window"
  | Rooftop => "Rooftop"
  | GroundFloor => "GroundFloor"
  | Ceiling => "Ceiling"
  | Floor => "Floor"
  | Door => "Door"
  end.

Record t : Type := mk {
  class : kind;
  name : option string;
  area : option Q;
  tilt : option Q;
  orientation : option Q;
  building_age_group : option (Z * Z);
  construction_type : option string;
  inner_radiation : option Q;
  inner_convection : option Q;
  outer_radiation : option Q;
  outer_convection : option Q;
  g_value : option Q;
  a_conv : option Q;
  shading_g_total : option Q;
  shading_max_irr : option Q;
  layer : list Layer.t
}.

Definition type_name (element : t) : string := class_name (class element).

(** Attribute assignments [element.x = v]. *)
Definition set_building_age_group (v : Z * Z) (e : t) : t :=
  mk (class e) (name e) (area e) (tilt e) (orientation e)
     (Some v) (construction_type e)
     (inner_radiation e) (inner_convection e)
     (outer_radiation e) (outer_convection e)
     (g_value e) (a_conv e) (shading_g_total e) (shading_max_irr e)
     (layer e).

Definition set_construction_type (v : string) (e : t) : t :=
  mk (class e) (name e) (area e) (tilt e) (orientation e)
     (building_age_group e) (Some v)
     (inner_radiation e) (inner_convection e)
     (outer_radiation e) (outer_convection e)
     (g_value e) (a_conv e) (shading_g_total e) (shading_max_irr e)
     (layer e).

Definition set_inner_radiation (v : Q) (e : t) : t :=
  mk (class e) (name e) (area e) (tilt e) (orientation e)
     (building_age_group e) (construction_type e)
     (Some v) (inner_convection e)
     (outer_radiation e) (outer_convection e)
     (g_value e) (a_conv e) (shading_g_total e) (shading_max_irr e)
     (layer e).

Definition set_inner_convection (v : Q) (e : t) : t :=
  mk (class e) (name e) (area e) (tilt e) (orientation e)
     (building_age_group e) (construction_type e)
     (inner_radiation e) (Some v)
     (outer_radiation e) (outer_convection e)
     (g_value e) (a_conv e) (shading_g_total e) (shading_max_irr e)
     (layer e).

Definition set_outer_radiation (v : Q) (e : t) : t :=
  mk (class e) (name e) (area e) (tilt e) (orientation e)
     (building_age_group e) (construction_type e)
     (inner_radiation e) (inner_convection e)
     (Some v) (outer_convection e)
     (g_value e) (a_conv e) (shading_g_total e) (shading_max_irr e)
     (layer e).

Definition set_outer_convection (v : Q) (e : t) : t :=
  mk (class e) (name e) (area e) (tilt e) (orientation e)
     (building_age_group e) (construction_type e)
     (inner_radiation e) (inner_convection e)
     (outer_radiation e) (Some v)
     (g_value e) (a_conv e) (shading_g_total e) (shading_max_irr e)
     (layer e).

Definition set_g_value (v : Q) (e : t) : t :=
  mk (class e) (name e) (area e) (tilt e) (orientation e)
     (building_age_group e) (construction_type e)
     (inner_radiation e) (inner_convection e)
     (outer_radiation e) (outer_convection e)
     (Some v) (a_conv e) (shading_g_total e) (shading_max_irr e)
     (layer e).

Definition set_a_conv (v : Q) (e : t) : t :=
  mk (class e) (name e) (area e) (tilt e) (orientation e)
     (building_age_group e) (construction_type e)
     (inner_radiation e) (inner_convection e)
     (outer_radiation e) (outer_convection e)
     (g_value e) (Some v) (shading_g_total e) (shading_max_irr e)
     (layer e).

Definition set_shading_g_total (v : Q) (e : t) : t :=
  mk (class e) (name e) (area e) (tilt e) (orientation e)
     (building_age_group e) (construction_type e)
     (inner_radiation e) (inner_convection e)
     (outer_radiation e) (outer_convection e)
     (g_value e) (a_conv e) (Some v) (shading_max_irr e)
     (layer e).

Definition set_shading_max_irr (v : Q) (e : t) : t :=
  mk (class e) (name e) (area e) (tilt e) (orientation e)
     (building_age_group e) (construction_type e)
     (inner_radiation e) (inner_convection e)
     (outer_radiation e) (outer_convection e)
     (g_value e) (a_conv e) (shading_g_total e) (Some v)
     (layer e).

(** Modelled from the spec: the constructor [Layer(element)] of class
    [Layer], which is not among the sources; the new layer is owned by the
    element and takes the next place in its ordered layer sequence. *)
Definition add_layer (l : Layer.t) (e : t) : t :=
  mk (class e) (name e) (area e) (tilt e) (orientation e)
     (building_age_group e) (construction_type e)
     (inner_radiation e) (inner_convection e)
     (outer_radiation e) (outer_convection e)
     (g_value e) (a_conv e) (shading_g_total e) (shading_max_irr e)
     (layer e ++ [l]).

End BuildingElement.

(** ** Component A: [buildingelement_input_json.py] *)

(** The record the material table holds under an id, if any. *)
Fixpoint find_material (bind : list (Z * MaterialIn.t)) (mat_id : Z)
  : option MaterialIn.t :=
  match bind with
  | [] => None
  | (i, m) :: rest =>
      if Z.eqb i mat_id then Some m else find_material rest mat_id
  end.

(** Modelled from the spec: [mat_input.load_material_id] of module
    [material_input_json], which is not among the sources: given a material
    id and the database, it puts name, density, conductivity and heat
    capacity (and the identity looked up) onto the target material, and
    fails if the id is absent. *)
Definition load_material_id (material : Material.t) (mat_id : Z)
    (data_class : DataClass.t) : result Material.t :=
  match find_material (DataClass.material_bind data_class) mat_id with
  | Some m =>
      Ok (Material.mk (Some mat_id)
            (Some (MaterialIn.name m))
            (Some (MaterialIn.density m))
            (Some (MaterialIn.thermal_conduc m))
            (Some (MaterialIn.heat_capac m)))
  | None => Raise (KeyError (KNum mat_id))
  end.

Definition _set_basic_data (element : BuildingElement.t)
    (element_in : ElementIn.t) : result BuildingElement.t :=
  let element :=
    BuildingElement.set_building_age_group
      (ElementIn.building_age_group element_in) element in
  let element :=
    BuildingElement.set_construction_type
      (ElementIn.construction_type element_in) element in
  let element :=
    BuildingElement.set_inner_radiation
      (ElementIn.inner_radiation element_in) element in
  let element :=
    BuildingElement.set_inner_convection
      (ElementIn.inner_convection element_in) element in
  if String.eqb (BuildingElement.type_name element) "OuterWall"
     || String.eqb (BuildingElement.type_name element) "Rooftop"
     || String.eqb (BuildingElement.type_name element) "Door"
  then
    let element :=
      BuildingElement.set_inner_radiation
        (ElementIn.inner_radiation element_in) element in
    let element :=
      BuildingElement.set_inner_convection
        (ElementIn.inner_convection element_in) element in
    v <- member "outer_radiation" (ElementIn.outer_radiation element_in) ;;
    let element := BuildingElement.set_outer_radiation v element in
    v <- member "outer_convection" (ElementIn.outer_convection element_in) ;;
    let element := BuildingElement.set_outer_convection v element in
    Ok element
  else if String.eqb (BuildingElement.type_name element) "Window"
  then
    v <- member "outer_radiation" (ElementIn.outer_radiation element_in) ;;
    let element := BuildingElement.set_outer_radiation v element in
    v <- member "outer_convection" (ElementIn.outer_convection element_in) ;;
    let element := BuildingElement.set_outer_convection v element in
    v <- member "g_value" (ElementIn.g_value element_in) ;;
    let element := BuildingElement.set_g_value v element in
    v <- member "a_conv" (ElementIn.a_conv element_in) ;;
    let element := BuildingElement.set_a_conv v element in
    v <- member "shading_g_total" (ElementIn.shading_g_total element_in) ;;
    let element := BuildingElement.set_shading_g_total v element in
    v <- member "shading_max_irr" (ElementIn.shading_max_irr element_in) ;;
    let element := BuildingElement.set_shading_max_irr v element in
    Ok element
  else Ok element.

(** [items()] or [items().__reversed__()] of a record's layers. *)
Definition layer_items (element_in : ElementIn.t) (reverse_layers : bool)
  : list (string * LayerIn.t) :=
  if reverse_layers
  then rev (ElementIn.layer element_in)
  else ElementIn.layer element_in.

Definition load_type_element (element : BuildingElement.t) (year : Z)
    (construction : string) (data_class : DataClass.t)
    (element_type : option string) (reverse_layers : bool)
  : result BuildingElement.t :=
  let element_binding := DataClass.element_bind data_class in
  let element_type :=
    match element_type with
    | None => BuildingElement.type_name element
    | Some t => t
    end in
  for_ element_binding
    (fun '(key, e) element =>
       if negb (String.eqb key "version") then
         element_in <- as_record e ;;
         if (fst (ElementIn.building_age_group element_in) <=? year)
            && (year <=? snd (ElementIn.building_age_group element_in))
            && String.eqb (ElementIn.construction_type element_in) construction
            && String.prefix element_type key
         then
           element <- _set_basic_data element element_in ;;
           for_ (layer_items element_in reverse_layers)
             (fun '(id, layer_in) element =>
                material <- load_material_id Material_new
                              (LayerIn.material_id layer_in) data_class ;;
                Ok (BuildingElement.add_layer
                      (Layer.mk id (LayerIn.thickness layer_in) material)
                      element))
             element
         else Ok element
       else Ok element)
    element.

Definition load_type_element_by_key (element : BuildingElement.t)
    (key_str : string) (data_class : DataClass.t) (reverse_layers : bool)
  : result BuildingElement.t :=
  let element_binding := DataClass.element_bind data_class in
  e <- get element_binding key_str ;;
  element_in <- as_record e ;;
  element <- _set_basic_data element element_in ;;
  for_ (layer_items element_in reverse_layers)
    (fun '(id, layer_in) element =>
       material <- load_material_id Material_new
                     (LayerIn.material_id layer_in) data_class ;;
       Ok (BuildingElement.add_layer
             (Layer.mk id (LayerIn.thickness layer_in) material)
             element))
    element.

(** ** Component B: [singlefamilydwelling.py] *)

Local Open Scope Q_scope.

(** A [dict] keyed by numbers ([outer_area], [window_area]); Python compares
    the keys [0.0] and [0] equal. *)
Module NumDict.

Definition t : Type := list (Q * Q).

(** [d[k] = v]: an existing key keeps its place, a new key goes last. *)
Fixpoint set (d : t) (k v : Q) : t :=
  match d with
  | [] => [(k, v)]
  | (k', v') :: rest =>
      if Qeq_bool k' k then (k', v) :: rest else (k', v') :: set rest k v
  end.

(** [d.get(k)]. *)
Fixpoint lookup (d : t) (k : Q) : option Q :=
  match d with
  | [] => None
  | (k', v') :: rest => if Qeq_bool k' k then Some v' else lookup rest k
  end.

End NumDict.

(** [self.x] on an attribute that only some branches of [__init__] assign. *)
Definition attr {V} (name : string) (v : option V) : result V :=
  match v with
  | Some x => Ok x
  | None => Raise (AttributeError name)
  end.

Module SingleFamilyDwelling.

(** The attributes of a [SingleFamilyDwelling] that [__init__] and
    [generate_archetype] assign and read.  A name table maps a name to
    [[tilt, orientation]]. *)
Record t : Type := mk {
  net_leased_area : Q;
  number_of_floors : Z;
  height_of_floors : Q;
  _residential_layout : Z;
  _neighbour_buildings : Z;
  _attic : Z;
  _cellar : Z;
  _dormer : Z;
  outer_wall_names : list (string * (Q * Q));
  roof_names : list (string * (Q * Q));
  ground_floor_names : list (string * (Q * Q));
  window_names : list (string * (Q * Q));
  est_living_area_factor : Q;
  est_bottom_building_closure : Q;
  est_upper_building_closure : Q;
  est_factor_win_area : Q;
  est_factor_cellar_area : Q;
  nr_of_orientation : Z;
  _living_area_per_floor : Q;
  _number_of_heated_floors : Q;
  _est_factor_heated_cellar : Q;
  _est_factor_heated_attic : Q;
  _est_roof_area : Q;
  _est_ground_floor_area : Q;
  _est_win_area : Q;
  _est_outer_wall_area : Q;
  _est_cellar_wall_area : Q;
  est_factor_neighbour : Q;
  est_extra_floor_area : Q;
  _est_factor_neighbour : option Q;
  _est_extra_floor_area : option Q;
  _est_facade_to_floor_area : Q;
  _est_area_per_floor : Q;
  _est_area_per_roof : Q;
  _est_factor_dormer : Q;
  _top_floor_area : option Q;
  _est_facade_area : option Q;
  outer_area : NumDict.t;
  window_area : NumDict.t
}.

End SingleFamilyDwelling.

(** The five property setters ([residential_layout], [neighbour_buildings],
    [attic], [cellar], [dormer]): [None] is stored as [0]. *)
Definition setter (value : option Z) : Z :=
  match value with
  | Some v => v
  | None => 0%Z
  end.

(** [SingleFamilyDwelling.__init__].  [outer_area] and [window_area] are the
    two dictionaries as the constructor of the base class leaves them; the
    base classes are not among the sources.  A chain of [if]/[elif] that
    assigns several attributes in each branch is a chain that yields the
    tuple of their values; without an [else], the tuple of the values the
    attributes have before the chain is kept ([_est_factor_neighbour] and
    [_est_extra_floor_area] have none: the two lines before their chain
    assign [est_factor_neighbour] and [est_extra_floor_area]). *)
Definition __init__
    (number_of_floors : Z) (height_of_floors : Q) (net_leased_area : Q)
    (residential_layout neighbour_buildings attic cellar dormer : option Z)
    (outer_area window_area : NumDict.t)
  : SingleFamilyDwelling.t :=
  let _residential_layout := setter residential_layout in
  let _neighbour_buildings := setter neighbour_buildings in
  let _attic := setter attic in
  let _cellar := setter cellar in
  let _dormer := setter dormer in
  let outer_wall_names :=
    [ ("Exterior Facade North", (90.0, 0.0));
      ("Exterior Facade East", (90.0, 90.0));
      ("Exterior Facade South", (90.0, 180.0));
      ("Exterior Facade West", (90.0, 270.0)) ] in
  let roof_names := [ ("Rooftop", (0, -1)) ] in
  let ground_floor_names := [ ("Ground Floor", (0, -2)) ] in
  let window_names :=
    [ ("Window Facade North", (90.0, 0.0));
      ("Window Facade East", (90.0, 90.0));
      ("Window Facade South", (90.0, 180.0));
      ("Window Facade West", (90.0, 270.0)) ] in
  let est_living_area_factor := 0.75 in
  let est_bottom_building_closure := 1.33 in
  let est_upper_building_closure := 1.0 in
  let est_factor_win_area := 0.2 in
  let est_factor_cellar_area := 0.5 in
  let nr_of_orientation := Z.of_nat (List.length outer_wall_names) in
  let _living_area_per_floor := 0 in
  let _number_of_heated_floors := 0 in
  let _est_factor_heated_cellar := 0 in
  let _est_factor_heated_attic := 0 in
  let _est_roof_area := 0 in
  let _est_ground_floor_area := 0.0 in
  let _est_win_area := 0 in
  let _est_outer_wall_area := 0.0 in
  let _est_cellar_wall_area := 0 in
  let est_factor_neighbour := 0.0 in
  let est_extra_floor_area := 0.0 in
  let by_neighbours :=
    if (_neighbour_buildings =? 0)%Z then (Some 0.0, Some 50.0)
    else if (_neighbour_buildings =? 1)%Z then (Some 1.0, Some 30.0)
    else if (_neighbour_buildings =? 2)%Z then (Some 2.0, Some 10.0)
    else (None, None) in
  let _est_factor_neighbour := fst by_neighbours in
  let _est_extra_floor_area := snd by_neighbours in
  let _est_facade_to_floor_area := 0.0 in
  let _est_facade_to_floor_area :=
    if (_residential_layout =? 0)%Z then 0.66
    else if (_residential_layout =? 1)%Z then 0.8
    else _est_facade_to_floor_area in
  let _est_factor_heated_attic := 0.0 in
  let _est_area_per_floor := 0.0 in
  let _est_area_per_roof := 0.0 in
  let by_attic :=
    if (_attic =? 0)%Z then (0.0, 1.33, 0.0)
    else if (_attic =? 1)%Z then (0.0, 0.0, 1.33)
    else if (_attic =? 2)%Z then (0.5, 0.75, 0.67)
    else if (_attic =? 3)%Z then (1.0, 1.5, 0.0)
    else (_est_factor_heated_attic, _est_area_per_floor, _est_area_per_roof) in
  let _est_factor_heated_attic := fst (fst by_attic) in
  let _est_area_per_floor := snd (fst by_attic) in
  let _est_area_per_roof := snd by_attic in
  let _est_factor_heated_cellar := 0.0 in
  let _est_factor_heated_cellar :=
    if (_cellar =? 0)%Z then 0.0
    else if (_cellar =? 1)%Z then 0.0
    else if (_cellar =? 2)%Z then 0.5
    else if (_cellar =? 3)%Z then 1.0
    else _est_factor_heated_cellar in
  let _est_factor_dormer := 0.0 in
  let _est_factor_dormer :=
    if (_dormer =? 0)%Z then 1.0
    else if (_dormer =? 1)%Z then 1.3
    else _est_factor_dormer in
  {| SingleFamilyDwelling.net_leased_area := net_leased_area;
     SingleFamilyDwelling.number_of_floors := number_of_floors;
     SingleFamilyDwelling.height_of_floors := height_of_floors;
     SingleFamilyDwelling._residential_layout := _residential_layout;
     SingleFamilyDwelling._neighbour_buildings := _neighbour_buildings;
     SingleFamilyDwelling._attic := _attic;
     SingleFamilyDwelling._cellar := _cellar;
     SingleFamilyDwelling._dormer := _dormer;
     SingleFamilyDwelling.outer_wall_names := outer_wall_names;
     SingleFamilyDwelling.roof_names := roof_names;
     SingleFamilyDwelling.ground_floor_names := ground_floor_names;
     SingleFamilyDwelling.window_names := window_names;
     SingleFamilyDwelling.est_living_area_factor := est_living_area_factor;
     SingleFamilyDwelling.est_bottom_building_closure :=
       est_bottom_building_closure;
     SingleFamilyDwelling.est_upper_building_closure :=
       est_upper_building_closure;
     SingleFamilyDwelling.est_factor_win_area := est_factor_win_area;
     SingleFamilyDwelling.est_factor_cellar_area := est_factor_cellar_area;
     SingleFamilyDwelling.nr_of_orientation := nr_of_orientation;
     SingleFamilyDwelling._living_area_per_floor := _living_area_per_floor;
     SingleFamilyDwelling._number_of_heated_floors := _number_of_heated_floors;
     SingleFamilyDwelling._est_factor_heated_cellar :=
       _est_factor_heated_cellar;
     SingleFamilyDwelling._est_factor_heated_attic := _est_factor_heated_attic;
     SingleFamilyDwelling._est_roof_area := _est_roof_area;
     SingleFamilyDwelling._est_ground_floor_area := _est_ground_floor_area;
     SingleFamilyDwelling._est_win_area := _est_win_area;
     SingleFamilyDwelling._est_outer_wall_area := _est_outer_wall_area;
     SingleFamilyDwelling._est_cellar_wall_area := _est_cellar_wall_area;
     SingleFamilyDwelling.est_factor_neighbour := est_factor_neighbour;
     SingleFamilyDwelling.est_extra_floor_area := est_extra_floor_area;
     SingleFamilyDwelling._est_factor_neighbour := _est_factor_neighbour;
     SingleFamilyDwelling._est_extra_floor_area := _est_extra_floor_area;
     SingleFamilyDwelling._est_facade_to_floor_area :=
       _est_facade_to_floor_area;
     SingleFamilyDwelling._est_area_per_floor := _est_area_per_floor;
     SingleFamilyDwelling._est_area_per_roof := _est_area_per_roof;
     SingleFamilyDwelling._est_factor_dormer := _est_factor_dormer;
     SingleFamilyDwelling._top_floor_area := None;
     SingleFamilyDwelling._est_facade_area := None;
     SingleFamilyDwelling.outer_area := outer_area;
     SingleFamilyDwelling.window_area := window_area |}.

(** The assignment both branches of the orientation test make in the loops
    over [outer_wall_names] and [window_names]:
    [d[value[1]] = total / self.nr_of_orientation] when the orientation
    [value[1]] is 0 or 180, or else 90 or 270; no assignment otherwise. *)
Definition orientation_share (total : Q) (nr_of_orientation : Z)
    (item : string * (Q * Q)) (d : NumDict.t) : result NumDict.t :=
  let '(key, value) := item in
  if Qeq_bool (snd value) 0 || Qeq_bool (snd value) 180.0 then
    share <- Py.div total (inject_Z nr_of_orientation) ;;
    Ok (NumDict.set d (snd value) share)
  else if Qeq_bool (snd value) 90 || Qeq_bool (snd value) 270 then
    share <- Py.div total (inject_Z nr_of_orientation) ;;
    Ok (NumDict.set d (snd value) share)
  else Ok d.

(** [generate_archetype]: the estimation stages and the two area
    dictionaries.  The statements in between that create the zone, its use
    conditions and the element objects, and the closing calls that hand the
    areas to them, run code of classes that are not among the sources and
    are not part of this embedding; of the attributes below they touch only
    [net_leased_area], which the zones add their areas to after the reset
    to [0.0] modelled here.  [type_bldg_area] is the net leased area the
    building was given. *)
Definition generate_archetype (self : SingleFamilyDwelling.t)
  : result SingleFamilyDwelling.t :=
  let type_bldg_area := SingleFamilyDwelling.net_leased_area self in
  let net_leased_area := 0.0 in
  let _number_of_heated_floors :=
    SingleFamilyDwelling._est_factor_heated_cellar self
    + inject_Z (SingleFamilyDwelling.number_of_floors self)
    + SingleFamilyDwelling.est_living_area_factor self
      * SingleFamilyDwelling._est_factor_heated_attic self in
  _living_area_per_floor <- Py.div type_bldg_area _number_of_heated_floors ;;
  let _est_ground_floor_area :=
    SingleFamilyDwelling.est_bottom_building_closure self
    * _living_area_per_floor in
  let _est_roof_area :=
    SingleFamilyDwelling.est_upper_building_closure self
    * SingleFamilyDwelling._est_factor_dormer self
    * SingleFamilyDwelling._est_area_per_floor self
    * _living_area_per_floor in
  let _top_floor_area :=
    SingleFamilyDwelling._est_area_per_roof self * _living_area_per_floor in
  let _est_roof_area :=
    if Qeq_bool _est_roof_area 0 then _top_floor_area else _est_roof_area in
  _est_extra_floor_area <-
    attr "_est_extra_floor_area"
      (SingleFamilyDwelling._est_extra_floor_area self) ;;
  let _est_facade_area :=
    SingleFamilyDwelling._est_facade_to_floor_area self
    * (_living_area_per_floor + _est_extra_floor_area) in
  let _est_win_area :=
    SingleFamilyDwelling.est_factor_win_area self * type_bldg_area in
  let _est_cellar_wall_area :=
    SingleFamilyDwelling.est_factor_cellar_area self
    * SingleFamilyDwelling._est_factor_heated_cellar self
    * _est_facade_area in
  let _est_outer_wall_area :=
    (_number_of_heated_floors * _est_facade_area)
    - _est_cellar_wall_area
    - _est_win_area in
  outer_area <-
    for_ (SingleFamilyDwelling.outer_wall_names self)
      (orientation_share _est_outer_wall_area
         (SingleFamilyDwelling.nr_of_orientation self))
      (SingleFamilyDwelling.outer_area self) ;;
  window_area <-
    for_ (SingleFamilyDwelling.window_names self)
      (orientation_share _est_win_area
         (SingleFamilyDwelling.nr_of_orientation self))
      (SingleFamilyDwelling.window_area self) ;;
  outer_area <-
    for_ (SingleFamilyDwelling.roof_names self)
      (fun '(key, value) d => Ok (NumDict.set d (snd value) _est_roof_area))
      outer_area ;;
  outer_area <-
    for_ (SingleFamilyDwelling.ground_floor_names self)
      (fun '(key, value) d =>
         Ok (NumDict.set d (snd value) _est_ground_floor_area))
      outer_area ;;
  Ok {| SingleFamilyDwelling.net_leased_area := net_leased_area;
        SingleFamilyDwelling.number_of_floors :=
          SingleFamilyDwelling.number_of_floors self;
        SingleFamilyDwelling.height_of_floors :=
          SingleFamilyDwelling.height_of_floors self;
        SingleFamilyDwelling._residential_layout :=
          SingleFamilyDwelling._residential_layout self;
        SingleFamilyDwelling._neighbour_buildings :=
          SingleFamilyDwelling._neighbour_buildings self;
        SingleFamilyDwelling._attic := SingleFamilyDwelling._attic self;
        SingleFamilyDwelling._cellar := SingleFamilyDwelling._cellar self;
        SingleFamilyDwelling._dormer := SingleFamilyDwelling._dormer self;
        SingleFamilyDwelling.outer_wall_names :=
          SingleFamilyDwelling.outer_wall_names self;
        SingleFamilyDwelling.roof_names :=
          SingleFamilyDwelling.roof_names self;
        SingleFamilyDwelling.ground_floor_names :=
          SingleFamilyDwelling.ground_floor_names self;
        SingleFamilyDwelling.window_names :=
          SingleFamilyDwelling.window_names self;
        SingleFamilyDwelling.est_living_area_factor :=
          SingleFamilyDwelling.est_living_area_factor self;
        SingleFamilyDwelling.est_bottom_building_closure :=
          SingleFamilyDwelling.est_bottom_building_closure self;
        SingleFamilyDwelling.est_upper_building_closure :=
          SingleFamilyDwelling.est_upper_building_closure self;
        SingleFamilyDwelling.est_factor_win_area :=
          SingleFamilyDwelling.est_factor_win_area self;
        SingleFamilyDwelling.est_factor_cellar_area :=
          SingleFamilyDwelling.est_factor_cellar_area self;
        SingleFamilyDwelling.nr_of_orientation :=
          SingleFamilyDwelling.nr_of_orientation self;
        SingleFamilyDwelling._living_area_per_floor := _living_area_per_floor;
        SingleFamilyDwelling._number_of_heated_floors :=
          _number_of_heated_floors;
        SingleFamilyDwelling._est_factor_heated_cellar :=
          SingleFamilyDwelling._est_factor_heated_cellar self;
        SingleFamilyDwelling._est_factor_heated_attic :=
          SingleFamilyDwelling._est_factor_heated_attic self;
        SingleFamilyDwelling._est_roof_area := _est_roof_area;
        SingleFamilyDwelling._est_ground_floor_area := _est_ground_floor_area;
        SingleFamilyDwelling._est_win_area := _est_win_area;
        SingleFamilyDwelling._est_outer_wall_area := _est_outer_wall_area;
        SingleFamilyDwelling._est_cellar_wall_area := _est_cellar_wall_area;
        SingleFamilyDwelling.est_factor_neighbour :=
          SingleFamilyDwelling.est_factor_neighbour self;
        SingleFamilyDwelling.est_extra_floor_area :=
          SingleFamilyDwelling.est_extra_floor_area self;
        SingleFamilyDwelling._est_factor_neighbour :=
          SingleFamilyDwelling._est_factor_neighbour self;
        SingleFamilyDwelling._est_extra_floor_area :=
          SingleFamilyDwelling._est_extra_floor_area self;
        SingleFamilyDwelling._est_facade_to_floor_area :=
          SingleFamilyDwelling._est_facade_to_floor_area self;
        SingleFamilyDwelling._est_area_per_floor :=
          SingleFamilyDwelling._est_area_per_floor self;
        SingleFamilyDwelling._est_area_per_roof :=
          SingleFamilyDwelling._est_area_per_roof self;
        SingleFamilyDwelling._est_factor_dormer :=
          SingleFamilyDwelling._est_factor_dormer self;
        SingleFamilyDwelling._top_floor_area := Some _top_floor_area;
        SingleFamilyDwelling._est_facade_area := Some _est_facade_area;
        SingleFamilyDwelling.outer_area := outer_area;
        SingleFamilyDwelling.window_area := window_area |}.

(** ** Vocabulary of the specification *)

Local Close Scope Q_scope.

(** The category a resolution looks for: the override when it is given,
    else the name of the element's class. *)
Definition category (element : BuildingElement.t)
    (element_type : option string) : string :=
  match element_type with
  | None => BuildingElement.type_name element
  | Some t => t
  end.

(** The matching predicate, in the words of the specification: the key is
    not the version entry, it starts with the category, the age range
    contains the year on both bounds, and the technique tag is the
    technique. *)
Definition matches (category : string) (year : Z) (technique : string)
    (key : string) (r : ElementIn.t) : Prop :=
  key <> "version"
  /\ String.prefix category key = true
  /\ fst (ElementIn.building_age_group r) <= year
     <= snd (ElementIn.building_age_group r)
  /\ ElementIn.construction_type r = technique.

Definition matchesb (category : string) (year : Z) (technique : string)
    (key : string) (r : ElementIn.t) : bool :=
  negb (String.eqb key "version")
  && String.prefix category key
  && (fst (ElementIn.building_age_group r) <=? year)
  && (year <=? snd (ElementIn.building_age_group r))
  && String.eqb (ElementIn.construction_type r) technique.

(** An entry of the database that takes no part in a resolution: the
    version entry, or a record that does not match. *)
Definition passed_over (category : string) (year : Z) (technique : string)
    (item : string * entry) : Prop :=
  fst item = "version"
  \/ exists r, snd item = TypeElement r
              /\ ~ matches category year technique (fst item) r.

Definition passed_overb (category : string) (year : Z) (technique : string)
    (item : string * entry) : bool :=
  String.eqb (fst item) "version"
  || match snd item with
     | TypeElement r => negb (matchesb category year technique (fst item) r)
     | Version _ => false
     end.

(** No record of the database matches. *)
Definition no_match (category : string) (year : Z) (technique : string)
    (bind : list (string * entry)) : Prop :=
  Forall (passed_over category year technique) bind.

(** Exactly one record of the database matches: the record [r] stored
    under [key]. *)
Definition exactly_one_match (category : string) (year : Z)
    (technique : string) (bind : list (string * entry))
    (key : string) (r : ElementIn.t) : Prop :=
  exists before after,
    bind = before ++ (key, TypeElement r) :: after
    /\ matches category year technique key r
    /\ no_match category year technique before
    /\ no_match category year technique after.

(** The database with another table of type elements. *)
Definition with_element_bind (data_class : DataClass.t)
    (bind : list (string * entry)) : DataClass.t :=
  DataClass.mk bind (DataClass.material_bind data_class).

(** The scan of [load_type_element] over a part [bind] of the table, for
    a category fixed beforehand. *)
Definition scan (year : Z) (construction : string)
    (data_class : DataClass.t) (reverse_layers : bool)
    (cat : string) (bind : list (string * entry))
    (element : BuildingElement.t) : result BuildingElement.t :=
  load_type_element element year construction
    (with_element_bind data_class bind) (Some cat) reverse_layers.

(** Applying a record to an element: the coefficients are copied, then
    the layers are assembled. *)
Definition apply_record (element : BuildingElement.t)
    (element_in : ElementIn.t) (reverse_layers : bool)
    (data_class : DataClass.t) : result BuildingElement.t :=
  element <- _set_basic_data element element_in ;;
  for_ (layer_items element_in reverse_layers)
    (fun '(id, layer_in) element =>
       material <- load_material_id Material_new
                     (LayerIn.material_id layer_in) data_class ;;
       Ok (BuildingElement.add_layer
             (Layer.mk id (LayerIn.thickness layer_in) material)
             element))
    element.

(** What a layer of the element and a layer definition of a record show:
    layer id, thickness and material id. *)
Definition layer_view (l : Layer.t) : string * Q * option Z :=
  (Layer.id l, Layer.thickness l, Material.material_id (Layer.material l)).

Definition layer_in_view (item : string * LayerIn.t) : string * Q * option Z :=
  (fst item, LayerIn.thickness (snd item),
   Some (LayerIn.material_id (snd item))).

(** The element [after] has received the layers of record [r]: its layer
    sequence is that of [before] followed by one layer per layer definition
    of [r], in storage order or in reversed storage order. *)
Definition receives_layers (before after : BuildingElement.t)
    (r : ElementIn.t) (reverse_layers : bool) : Prop :=
  exists new_layers,
    BuildingElement.layer after = BuildingElement.layer before ++ new_layers
    /\ map layer_view new_layers
       = map layer_in_view
           (if reverse_layers then rev (ElementIn.layer r)
            else ElementIn.layer r).

(** Every material a record refers to is in the material table. *)
Definition materials_known (data_class : DataClass.t) (r : ElementIn.t)
  : Prop :=
  Forall
    (fun item =>
       find_material (DataClass.material_bind data_class)
         (LayerIn.material_id (snd item)) <> None)
    (ElementIn.layer r).

(** The three coefficient sets of [_set_basic_data]. *)
Inductive coefficient_set : Type := Opaque | Glazing | Generic.

Definition coefficient_set_of (k : BuildingElement.kind) : coefficient_set :=
  match k with
  | BuildingElement.OuterWall
  | BuildingElement.Rooftop
  | BuildingElement.Door => Opaque
  | BuildingElement.Window => Glazing
  | _ => Generic
  end.

(** The record holds the members its coefficient set reads. *)
Definition has_coefficients (s : coefficient_set) (r : ElementIn.t) : Prop :=
  match s with
  | Opaque =>
      ElementIn.outer_radiation r <> None
      /\ ElementIn.outer_convection r <> None
  | Glazing =>
      ElementIn.outer_radiation r <> None
      /\ ElementIn.outer_convection r <> None
      /\ ElementIn.g_value r <> None
      /\ ElementIn.a_conv r <> None
      /\ ElementIn.shading_g_total r <> None
      /\ ElementIn.shading_max_irr r <> None
  | Generic => True
  end.

(** The element [after] carries the coefficients of record [r] that the
    coefficient set [s] copies; the other coefficients are those of
    [before]. *)
Definition coefficients_copied (s : coefficient_set)
    (before after : BuildingElement.t) (r : ElementIn.t) : Prop :=
  BuildingElement.class after = BuildingElement.class before
  /\ BuildingElement.building_age_group after
     = Some (ElementIn.building_age_group r)
  /\ BuildingElement.construction_type after
     = Some (ElementIn.construction_type r)
  /\ BuildingElement.inner_radiation after
     = Some (ElementIn.inner_radiation r)
  /\ BuildingElement.inner_convection after
     = Some (ElementIn.inner_convection r)
  /\ match s with
     | Opaque =>
         BuildingElement.outer_radiation after = ElementIn.outer_radiation r
         /\ BuildingElement.outer_convection after
            = ElementIn.outer_convection r
         /\ BuildingElement.g_value after = BuildingElement.g_value before
         /\ BuildingElement.a_conv after = BuildingElement.a_conv before
         /\ BuildingElement.shading_g_total after
            = BuildingElement.shading_g_total before
         /\ BuildingElement.shading_max_irr after
            = BuildingElement.shading_max_irr before
     | Glazing =>
         BuildingElement.outer_radiation after = ElementIn.outer_radiation r
         /\ BuildingElement.outer_convection after
            = ElementIn.outer_convection r
         /\ BuildingElement.g_value after = ElementIn.g_value r
         /\ BuildingElement.a_conv after = ElementIn.a_conv r
         /\ BuildingElement.shading_g_total after
            = ElementIn.shading_g_total r
         /\ BuildingElement.shading_max_irr after
            = ElementIn.shading_max_irr r
     | Generic =>
         BuildingElement.outer_radiation after
         = BuildingElement.outer_radiation before
         /\ BuildingElement.outer_convection after
            = BuildingElement.outer_convection before
         /\ BuildingElement.g_value after = BuildingElement.g_value before
         /\ BuildingElement.a_conv after = BuildingElement.a_conv before
         /\ BuildingElement.shading_g_total after
            = BuildingElement.shading_g_total before
         /\ BuildingElement.shading_max_irr after
            = BuildingElement.shading_max_irr before
     end.

Local Open Scope Q_scope.

(** The estimation coefficient tables, by configuration value. *)
Definition heated_cellar_factor (cellar : Z) : option Q :=
  match cellar with
  | 0%Z | 1%Z => Some 0.0
  | 2%Z => Some 0.5
  | 3%Z => Some 1.0
  | _ => None
  end.

Definition heated_attic_factor (attic : Z) : option Q :=
  match attic with
  | 0%Z | 1%Z => Some 0.0
  | 2%Z => Some 0.5
  | 3%Z => Some 1.0
  | _ => None
  end.

Definition area_per_floor_coeff (attic : Z) : option Q :=
  match attic with
  | 0%Z => Some 1.33
  | 1%Z => Some 0.0
  | 2%Z => Some 0.75
  | 3%Z => Some 1.5
  | _ => None
  end.

Definition area_per_roof_coeff (attic : Z) : option Q :=
  match attic with
  | 0%Z => Some 0.0
  | 1%Z => Some 1.33
  | 2%Z => Some 0.67
  | 3%Z => Some 0.0
  | _ => None
  end.

Definition dormer_factor (dormer : Z) : option Q :=
  match dormer with
  | 0%Z => Some 1.0
  | 1%Z => Some 1.3
  | _ => None
  end.

Definition facade_to_floor_ratio (layout : Z) : option Q :=
  match layout with
  | 0%Z => Some 0.66
  | 1%Z => Some 0.8
  | _ => None
  end.

Definition extra_floor_area (neighbours : Z) : option Q :=
  match neighbours with
  | 0%Z => Some 50.0
  | 1%Z => Some 30.0
  | 2%Z => Some 10.0
  | _ => None
  end.

(** The coefficient a configuration value selects, or the value [0.0] that
    [__init__] assigns before it looks at the configuration value. *)
Definition or_preset (coefficient : option Q) : Q :=
  match coefficient with
  | Some c => c
  | None => 0.0
  end.

(** A valid input of the estimator: a positive floor count, a positive net
    leased area, and five configuration values ([None] standing for 0) that
    have an entry in their tables. *)
Definition valid_input (number_of_floors : Z) (net_leased_area : Q)
    (residential_layout neighbour_buildings attic cellar dormer : option Z)
  : Prop :=
  (1 <= number_of_floors)%Z
  /\ 0 < net_leased_area
  /\ facade_to_floor_ratio (setter residential_layout) <> None
  /\ extra_floor_area (setter neighbour_buildings) <> None
  /\ heated_attic_factor (setter attic) <> None
  /\ heated_cellar_factor (setter cellar) <> None
  /\ dormer_factor (setter dormer) <> None.

(** The effective heated floor count of a building. *)
Definition heated_floors (self : SingleFamilyDwelling.t) : Q :=
  SingleFamilyDwelling._est_factor_heated_cellar self
  + inject_Z (SingleFamilyDwelling.number_of_floors self)
  + SingleFamilyDwelling.est_living_area_factor self
    * SingleFamilyDwelling._est_factor_heated_attic self.

(** The four orientations of the default name tables. *)
Definition default_orientations : list Q := [0; 90; 180; 270].

(** The entries of an area dictionary under the given orientations. *)
Fixpoint entries (d : NumDict.t) (keys : list Q) : option (list Q) :=
  match keys with
  | [] => Some []
  | k :: rest =>
      match NumDict.lookup d k, entries d rest with
      | Some v, Some vs => Some (v :: vs)
      | _, _ => None
      end
  end.

Definition total (areas : list Q) : Q := fold_right Qplus 0 areas.

(** A resolution request: by characteristics or by key. *)
Inductive resolution : Type :=
| ByCharacteristics (year : Z) (construction : string)
    (element_type : option string)
| ByKey (key_str : string).

Definition resolve (q : resolution) (element : BuildingElement.t)
    (data_class : DataClass.t) (reverse_layers : bool)
  : result BuildingElement.t :=
  match q with
  | ByCharacteristics year construction element_type =>
      load_type_element element year construction data_class element_type
        reverse_layers
  | ByKey key_str =>
      load_type_element_by_key element key_str data_class reverse_layers
  end.

(** The record [r] is the one record a resolution request matches. *)
Definition sole_match (q : resolution) (element : BuildingElement.t)
    (bind : list (string * entry)) (r : ElementIn.t) : Prop :=
  match q with
  | ByCharacteristics year construction element_type =>
      exists key,
        exactly_one_match (category element element_type) year construction
          bind key r
  | ByKey key_str => get bind key_str = Ok (TypeElement r)
  end.

(** ** A small database and a small building, for examples *)

Definition example_materials : list (Z * MaterialIn.t) :=
  [ (1%Z, MaterialIn.mk "lime_plaster" 1800 0.81 1.0);
    (2%Z, MaterialIn.mk "brick" 1700 0.68 0.84);
    (3%Z, MaterialIn.mk "gypsum_board" 800 0.25 1.0) ].

Definition example_outer_wall : ElementIn.t :=
  ElementIn.mk (1919, 1948)%Z "heavy" 5.0 2.7 (Some 5.0) (Some 20.0)
    None None None None
    [ ("0", LayerIn.mk 0.015 1); ("1", LayerIn.mk 0.3 2) ].

Definition example_inner_wall : ElementIn.t :=
  ElementIn.mk (1919, 1948)%Z "heavy" 5.0 2.7 None None
    None None None None
    [ ("0", LayerIn.mk 0.0125 3); ("1", LayerIn.mk 0.115 2);
      ("2", LayerIn.mk 0.015 1) ].

Definition example_bind : list (string * entry) :=
  [ ("version", Version "0.7");
    ("OuterWall_1919_1948_heavy", TypeElement example_outer_wall);
    ("InnerWall_1919_1948_heavy", TypeElement example_inner_wall) ].

Definition example_data : DataClass.t :=
  DataClass.mk example_bind example_materials.

(** An element of class [k] on which nothing has been set yet. *)
Definition example_element (k : BuildingElement.kind) : BuildingElement.t :=
  BuildingElement.mk k None None None None None None None None None None
    None None None None [].

(** ** Further vocabulary for the resolver *)

(** A table of type elements as the JSON file gives it: the version entry
    and records. *)
Definition version_or_record (item : string * entry) : Prop :=
  fst item = "version" \/ exists r, snd item = TypeElement r.

Definition version_or_recordb (item : string * entry) : bool :=
  String.eqb (fst item) "version"
  || match snd item with
     | TypeElement _ => true
     | Version _ => false
     end.

(** The records a resolution by characteristics matches, in the order of
    the table. *)
Fixpoint matching_records (category : string) (year : Z)
    (technique : string) (bind : list (string * entry))
  : list ElementIn.t :=
  match bind with
  | [] => []
  | (key, TypeElement r) :: rest =>
      if matchesb category year technique key r
      then r :: matching_records category year technique rest
      else matching_records category year technique rest
  | (key, Version _) :: rest =>
      matching_records category year technique rest
  end.

(** The layer one layer definition stands for, when its material is in the
    material table. *)
Definition build_layer (data_class : DataClass.t)
    (item : string * LayerIn.t) : option Layer.t :=
  match load_material_id Material_new (LayerIn.material_id (snd item))
          data_class with
  | Ok material =>
      Some (Layer.mk (fst item) (LayerIn.thickness (snd item)) material)
  | Raise _ => None
  end.

Fixpoint build_layers (data_class : DataClass.t)
    (items : list (string * LayerIn.t)) : option (list Layer.t) :=
  match items with
  | [] => Some []
  | item :: rest =>
      match build_layer data_class item, build_layers data_class rest with
      | Some l, Some ls => Some (l :: ls)
      | _, _ => None
      end
  end.

(** The element with further layers put after its own. *)
Definition add_layers (new_layers : list Layer.t) (e : BuildingElement.t)
  : BuildingElement.t :=
  fold_left (fun e l => BuildingElement.add_layer l e) new_layers e.

(** [after] is [before] with, at most, other construction data and further
    layers: same class, same name, area, tilt and orientation, and the
    layers of [before] first. *)
Definition extends (before after : BuildingElement.t) : Prop :=
  BuildingElement.class after = BuildingElement.class before
  /\ BuildingElement.name after = BuildingElement.name before
  /\ BuildingElement.area after = BuildingElement.area before
  /\ BuildingElement.tilt after = BuildingElement.tilt before
  /\ BuildingElement.orientation after = BuildingElement.orientation before
  /\ exists new_layers,
       BuildingElement.layer after
       = BuildingElement.layer before ++ new_layers.

(** ** Further vocabulary for the estimator *)

(** The orientation test of the two share loops: 0 or 180, or else 90 or
    270. *)
Definition cardinal (o : Q) : bool :=
  (Qeq_bool o 0 || Qeq_bool o 180.0) || (Qeq_bool o 90 || Qeq_bool o 270).

(** A name table holds a name of orientation [k]. *)
Definition names_hit (names : list (string * (Q * Q))) (k : Q) : bool :=
  existsb (fun item => Qeq_bool (snd (snd item)) k) names.

(** A name table holds a name of orientation [k], and [k] passes the
    orientation test. *)
Definition shares_hit (names : list (string * (Q * Q))) (k : Q) : bool :=
  existsb
    (fun item => cardinal (snd (snd item)) && Qeq_bool (snd (snd item)) k)
    names.

(** ** [project.py]: the project *)

Module Project.

(** The attributes of a [Project] that the methods below assign and read.
    A building is an object of a class that is not among the sources;
    [buildings] lists the buildings by object identity. *)
Record t : Type := mk {
  _name : string;
  buildings : list nat;
  _number_of_elements_calc : Z;
  _merge_windows_calc : bool;
  _used_library_calc : string
}.

Definition set__name (v : string) (self : t) : t :=
  mk v (buildings self) (_number_of_elements_calc self)
     (_merge_windows_calc self) (_used_library_calc self).

Definition set_buildings (v : list nat) (self : t) : t :=
  mk (_name self) v (_number_of_elements_calc self)
     (_merge_windows_calc self) (_used_library_calc self).

(** What the [name] setter can come to: the project with its new name, or
    [IndexError]. *)
Inductive named : Type :=
| Named (self : t)
| IndexError.

End Project.

(** A character of the class [[a-zA-z0-9]]: the ranges [a-z], [A-z] and
    [0-9] by character code.  A character beyond ASCII is in none of them,
    whether it is read as one code point or as its bytes. *)
Definition in_class (c : ascii) : bool :=
  let n := nat_of_ascii c in
  ((97 <=? n)%nat && (n <=? 122)%nat)
  || ((65 <=? n)%nat && (n <=? 122)%nat)
  || ((48 <=? n)%nat && (n <=? 57)%nat).

(** [re.compile("[^a-zA-z0-9]").sub("", value)]: every character outside
    the class is deleted. *)
Fixpoint regex_sub (value : string) : string :=
  match value with
  | EmptyString => EmptyString
  | String c rest =>
      if in_class c then String c (regex_sub rest) else regex_sub rest
  end.

(** [c.isdigit()] on a character of the class. *)
Definition isdigit (c : ascii) : bool :=
  let n := nat_of_ascii c in
  (48 <=? n)%nat && (n <=? 57)%nat.

(** The setter of [Project.name], on a [str]; a value of another type is
    turned into one by [str(value)] first.  [self._name[0]] raises
    [IndexError] on the empty string. *)
Definition name_setter (self : Project.t) (value : string) : Project.named :=
  let self := Project.set__name (regex_sub value) self in
  match Project._name self with
  | EmptyString => Project.IndexError
  | String c _ =>
      if isdigit c
      then Project.Named
             (Project.set__name ("P" ++ Project._name self) self)
      else Project.Named self
  end.

Section CalcAllBuildings.

(** The state of a building object. *)
Variable Building : Type.

(** [bldg.calc_building_parameter(number_of_elements, merge_windows,
    used_library)], a method of the building classes, which are not among
    the sources: the state in which the call leaves the building it is
    called on, and the exception it raises, if any. *)
Variable calc_building_parameter :
  Z -> bool -> string -> Building -> Building * option exn.

(** The project and the building objects it refers to. *)
Record world : Type := mk_world {
  project : Project.t;
  heap : nat -> Building
}.

Definition set_heap (bldg : nat) (state : Building) (w : world) : world :=
  mk_world (project w)
    (fun a => if Nat.eqb a bldg then state else heap w a).

(** [l.remove(x)]: the first item equal to [x] goes; the loops below
    remove only an item they have just read from the list. *)
Fixpoint list_remove (x : nat) (l : list nat) : list nat :=
  match l with
  | [] => []
  | y :: rest => if Nat.eqb y x then rest else y :: list_remove x rest
  end.

Definition remove_building (bldg : nat) (w : world) : world :=
  mk_world
    (Project.set_buildings
       (list_remove bldg (Project.buildings (project w))) (project w))
    (heap w).

Definition call_calc (bldg : nat) (w : world) : world * option exn :=
  let '(state, raised) :=
    calc_building_parameter
      (Project._number_of_elements_calc (project w))
      (Project._merge_windows_calc (project w))
      (Project._used_library_calc (project w))
      (heap w bldg) in
  (set_heap bldg state w, raised).

(** [for bldg in reversed(self.buildings)]: the iterator holds an index,
    which starts at the last place, yields the item at the index while the
    index is within the list as it is then, and goes down by one.
    [index] is that index plus one.  First loop: an exception leaves the
    method. *)
Fixpoint calc_or_raise (index : nat) (w : world) : result world :=
  match index with
  | O => Ok w
  | S i =>
      match nth_error (Project.buildings (project w)) i with
      | None => Ok w
      | Some bldg =>
          let '(w, raised) := call_calc bldg w in
          match raised with
          | None => calc_or_raise i w
          | Some e => Raise e
          end
      end
  end.

(** Second loop: [ZeroDivisionError] and [TypeError] are caught, and the
    building is removed from the list (after a warning); any other
    exception leaves the method. *)
Fixpoint calc_or_remove (index : nat) (w : world) : result world :=
  match index with
  | O => Ok w
  | S i =>
      match nth_error (Project.buildings (project w)) i with
      | None => Ok w
      | Some bldg =>
          let '(w, raised) := call_calc bldg w in
          match raised with
          | None => calc_or_remove i w
          | Some ZeroDivisionError | Some TypeError =>
              calc_or_remove i (remove_building bldg w)
          | Some e => Raise e
          end
      end
  end.

Definition calc_all_buildings (raise_errors : bool) (w : world)
  : result world :=
  if raise_errors
  then calc_or_raise (List.length (Project.buildings (project w))) w
  else calc_or_remove (List.length (Project.buildings (project w))) w.

(** A call of [calc_building_parameter] on building [bldg] raises
    nothing. *)
Definition calculable (w : world) (bldg : nat) : bool :=
  match snd (call_calc bldg w) with
  | None => true
  | Some _ => false
  end.

(** It raises nothing, or an exception the second loop catches. *)
Definition calculable_or_caught (w : world) (bldg : nat) : bool :=
  match snd (call_calc bldg w) with
  | None | Some ZeroDivisionError | Some TypeError => true
  | Some _ => false
  end.

(** [h] holds the states of the building objects of [w] after the
    buildings [done] have been calculated, each once, and no other. *)
Definition heap_after (w : world) (done : list nat)
    (h : nat -> Building) : Prop :=
  forall a,
    h a = if existsb (Nat.eqb a) done
          then heap (fst (call_calc a w)) a
          else heap w a.

End CalcAllBuildings.

(** A building that is its area, and a calculation that divides by it. *)
Definition example_calc (number_of_elements : Z) (merge_windows : bool)
    (used_library : string) (area : Q) : Q * option exn :=
  if Qeq_bool area 0 then (area, Some ZeroDivisionError)
  else (1 / area, None).

Definition example_world : world Q :=
  mk_world Q
    (Project.mk "Project" [0%nat; 1%nat; 2%nat] 2 false "AixLib")
    (fun a => match a with
              | 0%nat => 100
              | 1%nat => 0
              | _ => 250
              end).

Local Close Scope Q_scope.

(** * Properties *)

(** ** Results and loops *)

Lemma bind_Ok_inv {A B} (m : result A) (k : A -> result B) (b : B) :
  Py.bind m k = Ok b -> exists a, m = Ok a /\ k a = Ok b.
Proof.
  destruct m as [a | e]; simpl; intros H.
  - exists a. split; [reflexivity | exact H].
  - discriminate H.
Qed.

Lemma bind_ret {A} (m : result A) : Py.bind m (fun a => Ok a) = m.
Proof. destruct m; reflexivity. Qed.

Lemma for_app {A S} (l1 l2 : list A) (body : A -> S -> result S) (s : S) :
  for_ (l1 ++ l2) body s = Py.bind (for_ l1 body s) (for_ l2 body).
Proof.
  revert s. induction l1 as [| x l1 IH]; intros s; simpl.
  - reflexivity.
  - destruct (body x s) as [s1 | e]; simpl; [apply IH | reflexivity].
Qed.

(** ** The matching predicate *)

Lemma matchesb_iff category year technique key r :
  matchesb category year technique key r = true
  <-> matches category year technique key r.
Proof.
  unfold matchesb, matches.
  rewrite !andb_true_iff, negb_true_iff, String.eqb_neq,
    !Z.leb_le, String.eqb_eq.
  tauto.
Qed.

Lemma matchesb_false category year technique key r :
  ~ matches category year technique key r ->
  matchesb category year technique key r = false.
Proof.
  intros H. destruct (matchesb category year technique key r) eqn:E.
  - apply matchesb_iff in E. contradiction.
  - reflexivity.
Qed.

Lemma passed_overb_sound category year technique item :
  passed_overb category year technique item = true ->
  passed_over category year technique item.
Proof.
  unfold passed_overb, passed_over.
  destruct item as [key e]; simpl.
  destruct (String.eqb_spec key "version") as [-> | Hk]; simpl.
  - intros _. left. reflexivity.
  - destruct e as [v | r]; [discriminate |].
    intros H. right. exists r. split; [reflexivity |].
    intros Hm. apply matchesb_iff in Hm. rewrite Hm in H. discriminate H.
Qed.

Lemma no_match_of_bool category year technique bind :
  forallb (passed_overb category year technique) bind = true ->
  no_match category year technique bind.
Proof.
  intros H. apply Forall_forall. intros item Hin.
  apply passed_overb_sound.
  rewrite forallb_forall in H. apply H, Hin.
Qed.

(** ** The scan of [load_type_element] *)

Lemma with_element_bind_self data_class :
  with_element_bind data_class (DataClass.element_bind data_class) = data_class.
Proof. destruct data_class; reflexivity. Qed.

Section Scan.

Variables (year : Z) (construction : string).
Variables (data_class : DataClass.t) (reverse_layers : bool).

Local Abbreviation scan :=
  (scan year construction data_class reverse_layers).

Lemma load_type_element_category element element_type :
  load_type_element element year construction data_class element_type
    reverse_layers
  = scan (category element element_type)
      (DataClass.element_bind data_class) element.
Proof.
  unfold scan. rewrite with_element_bind_self.
  destruct element_type; reflexivity.
Qed.

Lemma scan_app cat l1 l2 element :
  scan cat (l1 ++ l2) element
  = (element1 <- scan cat l1 element ;; scan cat l2 element1).
Proof.
  unfold scan, load_type_element, load_material_id. simpl.
  apply for_app.
Qed.

Lemma scan_match cat key r element :
  matches cat year construction key r ->
  scan cat [(key, TypeElement r)] element
  = apply_record element r reverse_layers data_class.
Proof.
  intros (Hk & Hp & [Hlo Hhi] & Hc).
  unfold scan, load_type_element, apply_record, load_material_id. simpl.
  apply String.eqb_neq in Hk. rewrite Hk. simpl.
  apply Z.leb_le in Hlo. apply Z.leb_le in Hhi. apply String.eqb_eq in Hc.
  rewrite Hlo, Hhi, Hc, Hp. simpl.
  apply bind_ret.
Qed.

Lemma scan_passed_over cat item element :
  passed_over cat year construction item ->
  scan cat [item] element = Ok element.
Proof.
  destruct item as [key e]. unfold passed_over. simpl.
  intros [-> | (r & -> & Hn)].
  - reflexivity.
  - apply matchesb_false in Hn. unfold matchesb in Hn.
    unfold scan, load_type_element. simpl.
    destruct (String.eqb key "version"); simpl in *; [reflexivity |].
    destruct (fst (ElementIn.building_age_group r) <=? year);
      destruct (year <=? snd (ElementIn.building_age_group r));
      destruct (String.eqb (ElementIn.construction_type r) construction);
      destruct (String.prefix cat key);
      simpl in *; try reflexivity; discriminate Hn.
Qed.

Lemma scan_no_match cat bind element :
  no_match cat year construction bind ->
  scan cat bind element = Ok element.
Proof.
  intros H. induction H as [| item bind Hitem _ IH].
  - reflexivity.
  - change (item :: bind) with ([item] ++ bind).
    rewrite scan_app, scan_passed_over by exact Hitem. exact IH.
Qed.

Lemma scan_record cat before key r after element :
  scan cat (before ++ (key, TypeElement r) :: after) element
  = (element1 <- scan cat before element ;;
     element2 <- scan cat [(key, TypeElement r)] element1 ;;
     scan cat after element2).
Proof.
  rewrite scan_app.
  change ((key, TypeElement r) :: after)
    with ([(key, TypeElement r)] ++ after).
  destruct (scan cat before element) as [element1 | e]; simpl;
    [| reflexivity].
  apply (scan_app cat [(key, TypeElement r)] after).
Qed.

Lemma scan_exactly_one cat bind key r element :
  exactly_one_match cat year construction bind key r ->
  scan cat bind element = apply_record element r reverse_layers data_class.
Proof.
  intros (before & after & -> & Hm & Hb & Ha).
  rewrite scan_record, scan_no_match by exact Hb. simpl.
  rewrite scan_match by exact Hm.
  destruct (apply_record element r reverse_layers data_class)
    as [element2 | e]; simpl; [| reflexivity].
  apply scan_no_match, Ha.
Qed.

End Scan.

(** ** Applying one record *)

Lemma add_layers_fields (new_layers : list Layer.t) (e : BuildingElement.t) :
  let e' := fold_left (fun e l => BuildingElement.add_layer l e) new_layers e in
  BuildingElement.layer e' = BuildingElement.layer e ++ new_layers
  /\ BuildingElement.class e' = BuildingElement.class e
  /\ BuildingElement.building_age_group e'
     = BuildingElement.building_age_group e
  /\ BuildingElement.construction_type e'
     = BuildingElement.construction_type e
  /\ BuildingElement.inner_radiation e' = BuildingElement.inner_radiation e
  /\ BuildingElement.inner_convection e' = BuildingElement.inner_convection e
  /\ BuildingElement.outer_radiation e' = BuildingElement.outer_radiation e
  /\ BuildingElement.outer_convection e' = BuildingElement.outer_convection e
  /\ BuildingElement.g_value e' = BuildingElement.g_value e
  /\ BuildingElement.a_conv e' = BuildingElement.a_conv e
  /\ BuildingElement.shading_g_total e' = BuildingElement.shading_g_total e
  /\ BuildingElement.shading_max_irr e' = BuildingElement.shading_max_irr e.
Proof.
  revert e. induction new_layers as [| l rest IH]; intros e; simpl.
  - rewrite app_nil_r. repeat split.
  - specialize (IH (BuildingElement.add_layer l e)). simpl in IH.
    rewrite <- app_assoc in IH. exact IH.
Qed.

Section Layers.

Variable data_class : DataClass.t.

Local Abbreviation assemble :=
  (fun '(id, layer_in) element =>
     material <- load_material_id Material_new
                   (LayerIn.material_id layer_in) data_class ;;
     Ok (BuildingElement.add_layer
           (Layer.mk id (LayerIn.thickness layer_in) material)
           element)).

Lemma assemble_Ok items element element' :
  for_ items assemble element = Ok element' ->
  exists new_layers,
    element' = fold_left (fun e l => BuildingElement.add_layer l e)
                 new_layers element
    /\ map layer_view new_layers = map layer_in_view items.
Proof.
  revert element. induction items as [| [id layer_in] rest IH];
    intros element H; simpl in H.
  - exists []. inversion H. split; reflexivity.
  - unfold load_material_id in H.
    destruct (find_material (DataClass.material_bind data_class)
                (LayerIn.material_id layer_in)) as [m |]; simpl in H;
      [| discriminate H].
    apply IH in H. destruct H as (new_layers & -> & Hv).
    eexists (_ :: new_layers). split; [reflexivity |].
    simpl. rewrite Hv. reflexivity.
Qed.

Lemma assemble_total items element :
  Forall
    (fun item =>
       find_material (DataClass.material_bind data_class)
         (LayerIn.material_id (snd item)) <> None) items ->
  exists element', for_ items assemble element = Ok element'.
Proof.
  intros H. revert element.
  induction H as [| [id layer_in] rest Hm _ IH]; intros element; simpl.
  - exists element. reflexivity.
  - unfold load_material_id. simpl in Hm.
    destruct (find_material (DataClass.material_bind data_class)
                (LayerIn.material_id layer_in)) as [m |];
      [| contradiction Hm; reflexivity].
    simpl. apply IH.
Qed.

End Layers.

Lemma _set_basic_data_Ok element r element1 :
  _set_basic_data element r = Ok element1 ->
  coefficients_copied (coefficient_set_of (BuildingElement.class element))
    element element1 r
  /\ BuildingElement.layer element1 = BuildingElement.layer element.
Proof.
  unfold _set_basic_data, BuildingElement.type_name, coefficients_copied.
  simpl.
  destruct (BuildingElement.class element) eqn:Ek; simpl;
    destruct (ElementIn.outer_radiation r);
    destruct (ElementIn.outer_convection r);
    destruct (ElementIn.g_value r);
    destruct (ElementIn.a_conv r);
    destruct (ElementIn.shading_g_total r);
    destruct (ElementIn.shading_max_irr r);
    simpl; intros H; inversion H; subst; simpl; rewrite ?Ek;
    repeat split.
Qed.

Lemma _set_basic_data_total element r :
  has_coefficients (coefficient_set_of (BuildingElement.class element)) r ->
  exists element1, _set_basic_data element r = Ok element1.
Proof.
  unfold _set_basic_data, BuildingElement.type_name, has_coefficients.
  simpl.
  destruct (BuildingElement.class element); simpl;
    destruct (ElementIn.outer_radiation r);
    destruct (ElementIn.outer_convection r);
    destruct (ElementIn.g_value r);
    destruct (ElementIn.a_conv r);
    destruct (ElementIn.shading_g_total r);
    destruct (ElementIn.shading_max_irr r);
    simpl; intros H; try (eexists; reflexivity);
    repeat match goal with
           | H : _ /\ _ |- _ => destruct H
           | H : None <> None |- _ => contradiction H; reflexivity
           end.
Qed.

Lemma apply_record_Ok element r reverse_layers data_class element' :
  apply_record element r reverse_layers data_class = Ok element' ->
  coefficients_copied (coefficient_set_of (BuildingElement.class element))
    element element' r
  /\ receives_layers element element' r reverse_layers.
Proof.
  unfold apply_record. intros H.
  apply bind_Ok_inv in H. destruct H as (element1 & H1 & H2).
  apply _set_basic_data_Ok in H1. destruct H1 as [Hc Hl].
  apply assemble_Ok in H2. destruct H2 as (new_layers & -> & Hv).
  pose proof (add_layers_fields new_layers element1) as F. simpl in F.
  destruct F as
    (Fl & Fk & Fa & Ft & Fir & Fic & For & Foc & Fg & Fac & Fsg & Fsm).
  split.
  - unfold coefficients_copied in *.
    rewrite Fk, Fa, Ft, Fir, Fic, For, Foc, Fg, Fac, Fsg, Fsm. exact Hc.
  - exists new_layers. split.
    + rewrite Fl, Hl. reflexivity.
    + exact Hv.
Qed.

Lemma apply_record_total element r reverse_layers data_class :
  has_coefficients (coefficient_set_of (BuildingElement.class element)) r ->
  materials_known data_class r ->
  exists element',
    apply_record element r reverse_layers data_class = Ok element'.
Proof.
  intros Hc Hm. unfold apply_record.
  destruct (_set_basic_data_total element r Hc) as [element1 ->]. simpl.
  apply assemble_total. unfold layer_items.
  destruct reverse_layers; [apply Forall_rev |]; exact Hm.
Qed.

Lemma get_absent {V} (d : list (string * V)) (k : string) :
  ~ In k (map fst d) -> get d k = Raise (KeyError (KStr k)).
Proof.
  induction d as [| [k' v] rest IH]; simpl; intros H.
  - reflexivity.
  - destruct (String.eqb_spec k' k) as [-> | Hne].
    + contradiction H. left. reflexivity.
    + apply IH. intros Hin. apply H. right. exact Hin.
Qed.

Lemma load_type_element_by_key_record element key_str data_class
    reverse_layers r :
  get (DataClass.element_bind data_class) key_str = Ok (TypeElement r) ->
  load_type_element_by_key element key_str data_class reverse_layers
  = apply_record element r reverse_layers data_class.
Proof.
  intros H. unfold load_type_element_by_key, apply_record.
  rewrite H. reflexivity.
Qed.

Lemma load_type_element_exactly_one element year construction data_class
    element_type reverse_layers key r :
  exactly_one_match (category element element_type) year construction
    (DataClass.element_bind data_class) key r ->
  load_type_element element year construction data_class element_type
    reverse_layers
  = apply_record element r reverse_layers data_class.
Proof.
  intros H. rewrite load_type_element_category.
  apply scan_exactly_one with (key := key). exact H.
Qed.

(** ** Component A: the statements of the specification *)


(** C2.  When no record of the database matches, resolve-by-characteristics
    raises nothing and returns the element as it was given: no coefficient
    is set and no layer is added. *)
Theorem load_type_element_no_match_unchanged :
  forall data_class element year construction element_type reverse_layers,
    no_match (category element element_type) year construction
      (DataClass.element_bind data_class) ->
    load_type_element element year construction data_class element_type
      reverse_layers
    = Ok element.
Proof.
  intros data_class element year construction element_type reverse_layers H.
  rewrite load_type_element_category. apply scan_no_match. exact H.
Qed.

(** C3.  When a resolution, by characteristics or by key, matches exactly
    one record, every result it returns has the element's earlier layers
    followed by one layer per layer definition of that record, with the
    record's layer ids, thicknesses and material ids, in storage order when
    [reverse_layers] is false and in reversed storage order when it is true;
    and it does return a result when the record holds the coefficients of
    the element's class and its materials are in the material table. *)
Theorem sole_match_layers_in_record_order :
  forall q data_class element reverse_layers r,
    sole_match q element (DataClass.element_bind data_class) r ->
    (forall element',
        resolve q element data_class reverse_layers = Ok element' ->
        receives_layers element element' r reverse_layers)
    /\ (has_coefficients
          (coefficient_set_of (BuildingElement.class element)) r ->
        materials_known data_class r ->
        exists element',
          resolve q element data_class reverse_layers = Ok element').
Proof.
  intros q data_class element reverse_layers r H.
  assert (E : resolve q element data_class reverse_layers
              = apply_record element r reverse_layers data_class).
  { destruct q as [year construction element_type | key_str]; simpl in *.
    - destruct H as [key H].
      apply load_type_element_exactly_one with (key := key). exact H.
    - apply load_type_element_by_key_record. exact H. }
  rewrite E. split.
  - intros element' H'. apply apply_record_Ok in H'. apply H'.
  - apply apply_record_total.
Qed.


Lemma load_type_element_no_match_unchanged_witness :
  load_type_element (example_element BuildingElement.OuterWall) 1978 "heavy"
    example_data None false
  = Ok (example_element BuildingElement.OuterWall).
Proof.
  apply load_type_element_no_match_unchanged.
  apply no_match_of_bool. reflexivity.
Defined.

Lemma sole_match_layers_in_record_order_witness :
  exists element',
    resolve (ByCharacteristics 1930 "heavy" None)
      (example_element BuildingElement.OuterWall) example_data true
    = Ok element'
    /\ receives_layers (example_element BuildingElement.OuterWall) element'
         example_outer_wall true.
Proof.
  assert (H : sole_match (ByCharacteristics 1930 "heavy" None)
                (example_element BuildingElement.OuterWall)
                (DataClass.element_bind example_data) example_outer_wall).
  { exists "OuterWall_1919_1948_heavy".
    exists [("version", Version "0.7")],
      [("InnerWall_1919_1948_heavy", TypeElement example_inner_wall)].
    split; [reflexivity |]. split.
    - unfold matches. simpl.
      repeat split; try discriminate; try reflexivity.
    - split; apply no_match_of_bool; reflexivity. }
  destruct (sole_match_layers_in_record_order _ example_data
              (example_element BuildingElement.OuterWall) true
              example_outer_wall H) as [Hlayers Htotal].
  destruct Htotal as [element' E].
  - simpl. split; discriminate.
  - unfold materials_known. simpl. repeat constructor; discriminate.
  - exists element'. split; [exact E | apply Hlayers, E].
Defined.



(** C8.  Resolve-by-key raises [KeyError] on a key the database does not
    hold.  On a key that holds a record it applies that record, whatever
    the record's age range and technique tag: every result carries the
    record's coefficients and layers, a result is returned when the record
    holds the coefficients of the element's class and its materials are
    known, and the outcome is the one of a resolve-by-characteristics call
    for which that record is the only match. *)
Theorem load_type_element_by_key_spec :
  forall data_class element key_str reverse_layers,
    (~ In key_str (map fst (DataClass.element_bind data_class)) ->
     load_type_element_by_key element key_str data_class reverse_layers
     = Raise (KeyError (KStr key_str)))
    /\ (forall r,
           get (DataClass.element_bind data_class) key_str
           = Ok (TypeElement r) ->
           (forall element',
               load_type_element_by_key element key_str data_class
                 reverse_layers = Ok element' ->
               coefficients_copied
                 (coefficient_set_of (BuildingElement.class element))
                 element element' r
               /\ receives_layers element element' r reverse_layers)
           /\ (has_coefficients
                 (coefficient_set_of (BuildingElement.class element)) r ->
               materials_known data_class r ->
               exists element',
                 load_type_element_by_key element key_str data_class
                   reverse_layers = Ok element')
           /\ (forall year construction element_type,
                  exactly_one_match (category element element_type) year
                    construction (DataClass.element_bind data_class)
                    key_str r ->
                  load_type_element element year construction data_class
                    element_type reverse_layers
                  = load_type_element_by_key element key_str data_class
                      reverse_layers)).
Proof.
  intros data_class element key_str reverse_layers. split.
  - intros H. unfold load_type_element_by_key.
    rewrite (get_absent _ _ H). reflexivity.
  - intros r H.
    rewrite (load_type_element_by_key_record _ _ _ _ _ H).
    split; [| split].
    + apply apply_record_Ok.
    + apply apply_record_total.
    + intros year construction element_type Hone.
      apply load_type_element_exactly_one with (key := key_str). exact Hone.
Qed.

Lemma load_type_element_by_key_spec_witness :
  load_type_element_by_key (example_element BuildingElement.InnerWall)
    "Floor_1919_1948_heavy" example_data false
  = Raise (KeyError (KStr "Floor_1919_1948_heavy"))
  /\ exists element',
      load_type_element_by_key (example_element BuildingElement.InnerWall)
        "InnerWall_1919_1948_heavy" example_data false
      = Ok element'.
Proof.
  split.
  - apply (proj1 (load_type_element_by_key_spec example_data
                    (example_element BuildingElement.InnerWall)
                    "Floor_1919_1948_heavy" false)).
    simpl. intros [H | [H | [H | []]]]; discriminate H.
  - destruct (proj2 (load_type_element_by_key_spec example_data
                       (example_element BuildingElement.InnerWall)
                       "InnerWall_1919_1948_heavy" false)
                example_inner_wall eq_refl) as (_ & Htotal & _).
    apply Htotal.
    + exact I.
    + unfold materials_known. simpl. repeat constructor; discriminate.
Defined.



(** ** Component B: the constructor *)

Local Open Scope Q_scope.

Ltac small_Z z :=
  destruct z as [| [[? | ? |] | [? | ? |] |] | ?].

Section Init.

Variables (number_of_floors : Z) (height_of_floors net_leased_area : Q).
Variables (residential_layout neighbour_buildings attic cellar dormer
           : option Z).
Variables (outer_area window_area : NumDict.t).

Local Abbreviation self :=
  (__init__ number_of_floors height_of_floors net_leased_area
     residential_layout neighbour_buildings attic cellar dormer
     outer_area window_area).

Lemma init_heated_cellar :
  SingleFamilyDwelling._est_factor_heated_cellar self
  = or_preset (heated_cellar_factor (setter cellar)).
Proof.
  unfold __init__. generalize (setter cellar). intros z.
  small_Z z; reflexivity.
Qed.

Lemma init_attic :
  SingleFamilyDwelling._est_factor_heated_attic self
  = or_preset (heated_attic_factor (setter attic))
  /\ SingleFamilyDwelling._est_area_per_floor self
     = or_preset (area_per_floor_coeff (setter attic))
  /\ SingleFamilyDwelling._est_area_per_roof self
     = or_preset (area_per_roof_coeff (setter attic)).
Proof.
  unfold __init__. generalize (setter attic). intros z.
  small_Z z; repeat split; reflexivity.
Qed.

Lemma init_dormer :
  SingleFamilyDwelling._est_factor_dormer self
  = or_preset (dormer_factor (setter dormer)).
Proof.
  unfold __init__. generalize (setter dormer). intros z.
  small_Z z; reflexivity.
Qed.

Lemma init_layout :
  SingleFamilyDwelling._est_facade_to_floor_area self
  = or_preset (facade_to_floor_ratio (setter residential_layout)).
Proof.
  unfold __init__. generalize (setter residential_layout). intros z.
  small_Z z; reflexivity.
Qed.

Lemma init_neighbours :
  SingleFamilyDwelling._est_extra_floor_area self
  = extra_floor_area (setter neighbour_buildings).
Proof.
  unfold __init__. generalize (setter neighbour_buildings). intros z.
  small_Z z; reflexivity.
Qed.

Lemma init_factors_nonnegative :
  0 <= SingleFamilyDwelling._est_factor_heated_cellar self
  /\ 0 <= SingleFamilyDwelling._est_factor_heated_attic self
  /\ 0 <= SingleFamilyDwelling.est_living_area_factor self.
Proof.
  rewrite init_heated_cellar, (proj1 init_attic).
  generalize (setter cellar) (setter attic). intros c a.
  small_Z c; small_Z a; repeat split; simpl; lra.
Qed.

End Init.

(** ** Component B: the area dictionaries *)

Lemma Qeq_bool_false_neq (x y : Q) : Qeq_bool x y = false -> ~ x == y.
Proof.
  intros H E. apply Qeq_bool_iff in E. rewrite E in H. discriminate H.
Qed.

Lemma neq_Qeq_bool_false (x y : Q) : ~ x == y -> Qeq_bool x y = false.
Proof.
  intros H. destruct (Qeq_bool x y) eqn:E; [| reflexivity].
  apply Qeq_bool_iff in E. contradiction.
Qed.

Lemma lookup_set (d : NumDict.t) (k v q : Q) :
  NumDict.lookup (NumDict.set d k v) q
  = if Qeq_bool k q then Some v else NumDict.lookup d q.
Proof.
  induction d as [| [k' v'] rest IH]; simpl.
  - reflexivity.
  - destruct (Qeq_bool k' k) eqn:Ek; simpl.
    + apply Qeq_bool_iff in Ek.
      destruct (Qeq_bool k' q) eqn:Eq1, (Qeq_bool k q) eqn:Eq2;
        try reflexivity; exfalso.
      * apply Qeq_bool_iff in Eq1. apply Qeq_bool_false_neq in Eq2.
        apply Eq2. rewrite <- Ek. exact Eq1.
      * apply Qeq_bool_iff in Eq2. apply Qeq_bool_false_neq in Eq1.
        apply Eq1. rewrite Ek. exact Eq2.
    + rewrite IH.
      destruct (Qeq_bool k' q) eqn:Eq1, (Qeq_bool k q) eqn:Eq2;
        try reflexivity; exfalso.
      apply Qeq_bool_iff in Eq1. apply Qeq_bool_iff in Eq2.
      apply Qeq_bool_false_neq in Ek. apply Ek.
      rewrite Eq1, Eq2. reflexivity.
Qed.

Lemma inject_Z_nonzero (n : Z) : n <> 0%Z -> Qeq_bool (inject_Z n) 0 = false.
Proof.
  intros H. apply neq_Qeq_bool_false. intros E.
  apply H. unfold Qeq in E. simpl in E. lia.
Qed.

Lemma orientation_share_cardinal total nr name tilt o d :
  nr <> 0%Z ->
  Qeq_bool o 0 || Qeq_bool o 180.0 || Qeq_bool o 90 || Qeq_bool o 270 = true ->
  orientation_share total nr (name, (tilt, o)) d
  = Ok (NumDict.set d o (total / inject_Z nr)).
Proof.
  intros Hnr Ho. unfold orientation_share, Py.div. simpl snd.
  rewrite (inject_Z_nonzero nr Hnr).
  destruct (Qeq_bool o 0), (Qeq_bool o 180.0), (Qeq_bool o 90),
    (Qeq_bool o 270); simpl in *; try reflexivity; discriminate Ho.
Qed.

Lemma orientation_share_total total nr item d :
  nr <> 0%Z ->
  exists d', orientation_share total nr item d = Ok d'.
Proof.
  intros Hnr. destruct item as [name [tilt o]].
  unfold orientation_share, Py.div. simpl snd.
  rewrite (inject_Z_nonzero nr Hnr).
  destruct (Qeq_bool o 0 || Qeq_bool o 180.0); simpl;
    [eexists; reflexivity |].
  destruct (Qeq_bool o 90 || Qeq_bool o 270); simpl; eexists; reflexivity.
Qed.

Lemma orientation_loop_total total nr names d :
  nr <> 0%Z ->
  exists d', for_ names (orientation_share total nr) d = Ok d'.
Proof.
  intros Hnr. revert d.
  induction names as [| item rest IH]; intros d; cbn [for_].
  - exists d. reflexivity.
  - destruct (orientation_share_total total nr item d Hnr) as [d1 ->].
    cbn [Py.bind]. apply IH.
Qed.

Lemma plain_loop_total (names : list (string * (Q * Q))) (area : Q) d :
  exists d',
    for_ names (fun '(key, value) d => Ok (NumDict.set d (snd value) area)) d
    = Ok d'.
Proof.
  revert d. induction names as [| [name value] rest IH]; intros d; simpl.
  - exists d. reflexivity.
  - apply IH.
Qed.

(** ** Component B: [generate_archetype] *)

(** What a completed run has computed, stage by stage. *)
Lemma generate_archetype_Ok self self' :
  generate_archetype self = Ok self' ->
  let living := SingleFamilyDwelling._living_area_per_floor self' in
  let product :=
    SingleFamilyDwelling.est_upper_building_closure self
    * SingleFamilyDwelling._est_factor_dormer self
    * SingleFamilyDwelling._est_area_per_floor self
    * living in
  Qeq_bool (heated_floors self) 0 = false
  /\ SingleFamilyDwelling._number_of_heated_floors self' = heated_floors self
  /\ living = SingleFamilyDwelling.net_leased_area self / heated_floors self
  /\ SingleFamilyDwelling._est_roof_area self'
     = (if Qeq_bool product 0
        then SingleFamilyDwelling._est_area_per_roof self * living
        else product)
  /\ SingleFamilyDwelling._est_ground_floor_area self'
     = SingleFamilyDwelling.est_bottom_building_closure self * living
  /\ SingleFamilyDwelling._est_win_area self'
     = SingleFamilyDwelling.est_factor_win_area self
       * SingleFamilyDwelling.net_leased_area self
  /\ (exists walls,
         for_ (SingleFamilyDwelling.outer_wall_names self)
           (orientation_share
              (SingleFamilyDwelling._est_outer_wall_area self')
              (SingleFamilyDwelling.nr_of_orientation self))
           (SingleFamilyDwelling.outer_area self) = Ok walls
         /\ (walls' <-
               for_ (SingleFamilyDwelling.roof_names self)
                 (fun '(key, value) d =>
                    Ok (NumDict.set d (snd value)
                          (SingleFamilyDwelling._est_roof_area self')))
                 walls ;;
             for_ (SingleFamilyDwelling.ground_floor_names self)
               (fun '(key, value) d =>
                  Ok (NumDict.set d (snd value)
                        (SingleFamilyDwelling._est_ground_floor_area self')))
               walls')
            = Ok (SingleFamilyDwelling.outer_area self'))
  /\ for_ (SingleFamilyDwelling.window_names self)
       (orientation_share
          (SingleFamilyDwelling._est_win_area self')
          (SingleFamilyDwelling.nr_of_orientation self))
       (SingleFamilyDwelling.window_area self)
     = Ok (SingleFamilyDwelling.window_area self')
  /\ SingleFamilyDwelling.nr_of_orientation self'
     = SingleFamilyDwelling.nr_of_orientation self.
Proof.
  unfold generate_archetype, Py.div. fold (heated_floors self).
  destruct (Qeq_bool (heated_floors self) 0) eqn:Eh; simpl;
    [discriminate |].
  destruct (SingleFamilyDwelling._est_extra_floor_area self) as [extra |];
    simpl; [| discriminate].
  match goal with
  | |- context [for_ (SingleFamilyDwelling.outer_wall_names self) ?f ?d] =>
      destruct (for_ (SingleFamilyDwelling.outer_wall_names self) f d)
        as [walls |] eqn:Ew; simpl; [| discriminate]
  end.
  match goal with
  | |- context [for_ (SingleFamilyDwelling.window_names self) ?f ?d] =>
      destruct (for_ (SingleFamilyDwelling.window_names self) f d)
        as [windows |] eqn:Ewin; simpl; [| discriminate]
  end.
  match goal with
  | |- context [for_ (SingleFamilyDwelling.roof_names self) ?f ?d] =>
      destruct (for_ (SingleFamilyDwelling.roof_names self) f d)
        as [walls1 |] eqn:Er; simpl; [| discriminate]
  end.
  match goal with
  | |- context [for_ (SingleFamilyDwelling.ground_floor_names self) ?f ?d] =>
      destruct (for_ (SingleFamilyDwelling.ground_floor_names self) f d)
        as [walls2 |] eqn:Eg; simpl; [| discriminate]
  end.
  intros H. inversion H; subst self'; clear H. simpl.
  repeat split; try reflexivity.
  - exists walls. split; [exact Ew |]. rewrite Er. simpl. exact Eg.
  - exact Ewin.
Qed.

Lemma generate_archetype_total self :
  Qeq_bool (heated_floors self) 0 = false ->
  SingleFamilyDwelling._est_extra_floor_area self <> None ->
  SingleFamilyDwelling.nr_of_orientation self <> 0%Z ->
  exists self', generate_archetype self = Ok self'.
Proof.
  intros Eh Hextra Hnr.
  unfold generate_archetype, Py.div. fold (heated_floors self).
  rewrite Eh. cbn [Py.bind].
  destruct (SingleFamilyDwelling._est_extra_floor_area self) as [extra |];
    [| contradiction Hextra; reflexivity].
  cbn [attr Py.bind].
  match goal with
  | |- context [for_ (SingleFamilyDwelling.outer_wall_names self)
                  (orientation_share ?t ?n) ?d] =>
      destruct (orientation_loop_total t n
                  (SingleFamilyDwelling.outer_wall_names self) d Hnr)
        as [walls ->]
  end.
  cbn [Py.bind].
  match goal with
  | |- context [for_ (SingleFamilyDwelling.window_names self)
                  (orientation_share ?t ?n) ?d] =>
      destruct (orientation_loop_total t n
                  (SingleFamilyDwelling.window_names self) d Hnr)
        as [windows ->]
  end.
  cbn [Py.bind].
  match goal with
  | |- context [for_ (SingleFamilyDwelling.roof_names self) ?f walls] =>
      match f with
      | context [NumDict.set _ _ ?a] =>
          destruct (plain_loop_total
                      (SingleFamilyDwelling.roof_names self) a walls)
            as [walls1 ->]
      end
  end.
  cbn [Py.bind].
  match goal with
  | |- context [for_ (SingleFamilyDwelling.ground_floor_names self)
                  ?f walls1] =>
      match f with
      | context [NumDict.set _ _ ?a] =>
          destruct (plain_loop_total
                      (SingleFamilyDwelling.ground_floor_names self) a walls1)
            as [walls2 ->]
      end
  end.
  cbn [Py.bind]. eexists. reflexivity.
Qed.

Lemma generate_archetype_zero_floors self :
  heated_floors self == 0 ->
  generate_archetype self = Raise ZeroDivisionError.
Proof.
  intros H. apply Qeq_bool_iff in H.
  unfold generate_archetype, Py.div. fold (heated_floors self).
  rewrite H. reflexivity.
Qed.

Lemma generate_archetype_nonzero_floors self :
  Qeq_bool (heated_floors self) 0 = false ->
  SingleFamilyDwelling.nr_of_orientation self <> 0%Z ->
  generate_archetype self <> Raise ZeroDivisionError.
Proof.
  intros Eh Hnr.
  destruct (SingleFamilyDwelling._est_extra_floor_area self) as [extra |]
    eqn:Eextra.
  - destruct (generate_archetype_total self Eh) as [self' ->];
      [rewrite Eextra; discriminate | exact Hnr | discriminate].
  - unfold generate_archetype, Py.div. fold (heated_floors self).
    rewrite Eh, Eextra. cbn [Py.bind attr]. discriminate.
Qed.

Lemma heated_floors_at_least_one self :
  (1 <= SingleFamilyDwelling.number_of_floors self)%Z ->
  0 <= SingleFamilyDwelling._est_factor_heated_cellar self ->
  0 <= SingleFamilyDwelling._est_factor_heated_attic self ->
  0 <= SingleFamilyDwelling.est_living_area_factor self ->
  1 <= heated_floors self.
Proof.
  intros Hn Hc Ha Hf. unfold heated_floors.
  assert (H1 : 1 <= inject_Z (SingleFamilyDwelling.number_of_floors self)).
  { change 1 with (inject_Z 1). rewrite <- Zle_Qle. exact Hn. }
  pose proof (Qmult_le_0_compat _ _ Hf Ha) as H2.
  lra.
Qed.

Lemma init_heated_floors_nonzero
    number_of_floors height_of_floors net_leased_area
    residential_layout neighbour_buildings attic cellar dormer
    outer_area window_area :
  (1 <= number_of_floors)%Z ->
  Qeq_bool
    (heated_floors
       (__init__ number_of_floors height_of_floors net_leased_area
          residential_layout neighbour_buildings attic cellar dormer
          outer_area window_area)) 0 = false.
Proof.
  intros Hn. apply neq_Qeq_bool_false. intros E.
  destruct (init_factors_nonnegative number_of_floors height_of_floors
              net_leased_area residential_layout neighbour_buildings
              attic cellar dormer outer_area window_area)
    as (Hc & Ha & Hf).
  set (self := __init__ number_of_floors height_of_floors net_leased_area
                 residential_layout neighbour_buildings attic cellar dormer
                 outer_area window_area) in *.
  assert (Hn' : (1 <= SingleFamilyDwelling.number_of_floors self)%Z)
    by exact Hn.
  pose proof (heated_floors_at_least_one self Hn' Hc Ha Hf) as H.
  rewrite E in H. lra.
Qed.

(** ** Component B: the statements of the specification *)



(** C5.  With a non-zero orientation count, [generate_archetype] raises
    [ZeroDivisionError] exactly when the heated floor count is zero; the
    division that raises it is the one that derives the living area per
    floor.  When the number of floors is at least 1 and the cellar factor,
    the attic factor and the living-area factor are not negative, it does
    not raise [ZeroDivisionError]. *)
Theorem living_area_division_by_zero :
  forall self,
    SingleFamilyDwelling.nr_of_orientation self <> 0%Z ->
    (generate_archetype self = Raise ZeroDivisionError
     <-> heated_floors self == 0)
    /\ ((1 <= SingleFamilyDwelling.number_of_floors self)%Z ->
        0 <= SingleFamilyDwelling._est_factor_heated_cellar self ->
        0 <= SingleFamilyDwelling._est_factor_heated_attic self ->
        0 <= SingleFamilyDwelling.est_living_area_factor self ->
        generate_archetype self <> Raise ZeroDivisionError).
Proof.
  intros self Hnr. split; [split |].
  - intros H. destruct (Qeq_bool (heated_floors self) 0) eqn:Eh.
    + apply Qeq_bool_iff. exact Eh.
    + contradiction (generate_archetype_nonzero_floors self Eh Hnr H).
  - apply generate_archetype_zero_floors.
  - intros Hn Hc Ha Hf.
    apply generate_archetype_nonzero_floors; [| exact Hnr].
    apply neq_Qeq_bool_false. intros E.
    pose proof (heated_floors_at_least_one self Hn Hc Ha Hf) as H.
    rewrite E in H. lra.
Qed.

Lemma living_area_division_by_zero_witness :
  generate_archetype (__init__ 0 2.5 120 None None None None None [] [])
  = Raise ZeroDivisionError
  /\ generate_archetype (__init__ 1 2.5 120 None None None None None [] [])
     <> Raise ZeroDivisionError.
Proof.
  split.
  - apply (proj1 (living_area_division_by_zero
                    (__init__ 0 2.5 120 None None None None None [] [])
                    ltac:(discriminate))).
    reflexivity.
  - apply (proj2 (living_area_division_by_zero
                    (__init__ 1 2.5 120 None None None None None [] [])
                    ltac:(discriminate))).
    + simpl. lia.
    + simpl. lra.
    + simpl. lra.
    + simpl. lra.
Defined.

(** C6.  For a building made by [__init__] with a dormer value and an attic
    type of the tables, a completed [generate_archetype] has formed the
    product 1.0 x dormer factor x area-per-floor coefficient x living area
    per floor; the roof area is that product when the product is not zero,
    and it is area-per-roof coefficient x living area per floor when the
    product is zero. *)
Theorem roof_area_with_fallback :
  forall number_of_floors height_of_floors net_leased_area
         residential_layout neighbour_buildings attic cellar dormer
         outer_area window_area dormer_coeff per_floor per_roof self',
    dormer_factor (setter dormer) = Some dormer_coeff ->
    area_per_floor_coeff (setter attic) = Some per_floor ->
    area_per_roof_coeff (setter attic) = Some per_roof ->
    generate_archetype
      (__init__ number_of_floors height_of_floors net_leased_area
         residential_layout neighbour_buildings attic cellar dormer
         outer_area window_area)
    = Ok self' ->
    let living := SingleFamilyDwelling._living_area_per_floor self' in
    let product := 1.0 * dormer_coeff * per_floor * living in
    (dormer_coeff = 1.0 \/ dormer_coeff = 1.3)
    /\ (product == 0 ->
        SingleFamilyDwelling._est_roof_area self' = per_roof * living)
    /\ (~ product == 0 ->
        SingleFamilyDwelling._est_roof_area self' = product).
Proof.
  intros n h area layout neighbours attic cellar dormer oa wa
    dormer_coeff per_floor per_roof self' Hd Hpf Hpr E living product.
  apply generate_archetype_Ok in E.
  destruct E as (_ & _ & _ & Eroof & _).
  rewrite init_dormer, Hd in Eroof.
  destruct (init_attic n h area layout neighbours attic cellar dormer oa wa)
    as (_ & Epf & Epr).
  rewrite Epf, Epr, Hpf, Hpr in Eroof.
  cbn [or_preset SingleFamilyDwelling.est_upper_building_closure __init__]
    in Eroof.
  fold living in Eroof. fold product in Eroof.
  split; [| split].
  - revert Hd. generalize (setter dormer). intros z.
    small_Z z; simpl; intros Hd; inversion Hd; auto.
  - intros Hz. apply Qeq_bool_iff in Hz. rewrite Hz in Eroof. exact Eroof.
  - intros Hnz. apply neq_Qeq_bool_false in Hnz. rewrite Hnz in Eroof.
    exact Eroof.
Qed.

Lemma roof_area_with_fallback_witness :
  exists self',
    generate_archetype
      (__init__ 1 2.5 120 None None (Some 1%Z) None None [] [])
    = Ok self'
    /\ SingleFamilyDwelling._est_roof_area self'
       = 1.33 * SingleFamilyDwelling._living_area_per_floor self'.
Proof.
  destruct (generate_archetype
              (__init__ 1 2.5 120 None None (Some 1%Z) None None [] []))
    as [self' | e] eqn:E; [| discriminate E].
  exists self'. split; [reflexivity |].
  destruct (roof_area_with_fallback 1 2.5 120 None None (Some 1%Z) None None
              [] [] 1.0 0.0 1.33 self' eq_refl eq_refl eq_refl E)
    as (_ & Hzero & _).
  apply Hzero. ring.
Defined.

Ltac closed_Qeq_bool :=
  repeat match goal with
         | |- context [Qeq_bool ?a ?b] =>
             let v := eval vm_compute in (Qeq_bool a b) in
             match v with
             | true => change (Qeq_bool a b) with true
             | false => change (Qeq_bool a b) with false
             end
         end.

(** C9.  For a building made by [__init__], whose name tables hold the four
    orientations 0, 90, 180 and 270 and whose orientation count is 4, a
    completed [generate_archetype] leaves under each of the four
    orientations an outer-wall area equal to the estimated outer-wall area
    divided by 4 and a window area equal to the estimated window area
    divided by 4; the four outer-wall entries add up to the estimated
    outer-wall area and the four window entries to the estimated window
    area. *)
Theorem orientation_shares :
  forall number_of_floors height_of_floors net_leased_area
         residential_layout neighbour_buildings attic cellar dormer
         outer_area window_area self',
    generate_archetype
      (__init__ number_of_floors height_of_floors net_leased_area
         residential_layout neighbour_buildings attic cellar dormer
         outer_area window_area)
    = Ok self' ->
    SingleFamilyDwelling.nr_of_orientation self' = 4%Z
    /\ exists walls windows,
        entries (SingleFamilyDwelling.outer_area self') default_orientations
        = Some walls
        /\ entries (SingleFamilyDwelling.window_area self')
             default_orientations
           = Some windows
        /\ List.length walls = 4%nat
        /\ List.length windows = 4%nat
        /\ Forall
             (fun a => a == SingleFamilyDwelling._est_outer_wall_area self' / 4)
             walls
        /\ Forall
             (fun a => a == SingleFamilyDwelling._est_win_area self' / 4)
             windows
        /\ total walls == SingleFamilyDwelling._est_outer_wall_area self'
        /\ total windows == SingleFamilyDwelling._est_win_area self'.
Proof.
  intros n h area layout neighbours attic cellar dormer oa wa self' E.
  apply generate_archetype_Ok in E.
  destruct E as (_ & _ & _ & _ & _ & _ & (walls0 & Ew & Erest) & Ewin & Enr).
  split; [rewrite Enr; reflexivity |].
  change (SingleFamilyDwelling.nr_of_orientation (__init__ _ _ _ _ _ _ _ _ _ _))
    with 4%Z in *.
  cbn [SingleFamilyDwelling.outer_wall_names
         SingleFamilyDwelling.window_names
         SingleFamilyDwelling.roof_names
         SingleFamilyDwelling.ground_floor_names
         SingleFamilyDwelling.outer_area
         SingleFamilyDwelling.window_area __init__ for_] in Ew, Ewin, Erest.
  rewrite !orientation_share_cardinal in Ew by (discriminate || reflexivity).
  rewrite !orientation_share_cardinal in Ewin by (discriminate || reflexivity).
  cbn [Py.bind] in Ew, Ewin. cbn [Py.bind snd] in Erest.
  rewrite !orientation_share_cardinal in Ew by (discriminate || reflexivity).
  rewrite !orientation_share_cardinal in Ewin by (discriminate || reflexivity).
  cbn [Py.bind] in Ew, Ewin.
  inversion Ew as [Hwalls]; clear Ew. inversion Ewin as [Hwin]; clear Ewin.
  inversion Erest as [Houter]; clear Erest.
  subst walls0.
  eexists
    [SingleFamilyDwelling._est_outer_wall_area self' / inject_Z 4; _; _; _],
    [SingleFamilyDwelling._est_win_area self' / inject_Z 4; _; _; _].
  split; [| split].
  - unfold entries, default_orientations. rewrite !lookup_set.
    closed_Qeq_bool. cbv beta iota. reflexivity.
  - unfold entries, default_orientations. rewrite !lookup_set.
    closed_Qeq_bool. cbv beta iota. reflexivity.
  - split; [reflexivity |]. split; [reflexivity |].
    split; [repeat constructor; reflexivity |].
    split; [repeat constructor; reflexivity |].
    unfold total. cbn [fold_right]. split; field.
Qed.

Lemma orientation_shares_witness :
  exists self',
    generate_archetype
      (__init__ 1 2.5 120 None None None None None [] [])
    = Ok self'
    /\ exists walls windows,
        entries (SingleFamilyDwelling.outer_area self') default_orientations
        = Some walls
        /\ entries (SingleFamilyDwelling.window_area self')
             default_orientations
           = Some windows
        /\ List.length walls = 4%nat
        /\ List.length windows = 4%nat
        /\ Forall
             (fun a => a == SingleFamilyDwelling._est_outer_wall_area self' / 4)
             walls
        /\ Forall
             (fun a => a == SingleFamilyDwelling._est_win_area self' / 4)
             windows
        /\ total walls == SingleFamilyDwelling._est_outer_wall_area self'
        /\ total windows == SingleFamilyDwelling._est_win_area self'.
Proof.
  destruct (generate_archetype
              (__init__ 1 2.5 120 None None None None None [] []))
    as [self' | e] eqn:E; [| discriminate E].
  exists self'. split; [reflexivity |].
  apply (proj2 (orientation_shares 1 2.5 120 None None None None None [] []
                  self' E)).
Defined.




(** * Further properties of the resolver *)

Local Close Scope Q_scope.

Lemma version_or_recordb_sound bind :
  forallb version_or_recordb bind = true -> Forall version_or_record bind.
Proof.
  intros H. apply Forall_forall. intros [key e] Hin.
  rewrite forallb_forall in H. specialize (H _ Hin).
  unfold version_or_recordb, version_or_record in *. simpl in *.
  destruct (String.eqb_spec key "version") as [-> | _]; simpl in H.
  - left. reflexivity.
  - destruct e as [v | r]; [discriminate H |]. right. exists r. reflexivity.
Qed.

(** ** Layer assembly as a list of layers *)

Section Assembly.

Variable data_class : DataClass.t.

Local Abbreviation assemble :=
  (fun '(id, layer_in) element =>
     material <- load_material_id Material_new
                   (LayerIn.material_id layer_in) data_class ;;
     Ok (BuildingElement.add_layer
           (Layer.mk id (LayerIn.thickness layer_in) material)
           element)).

Lemma assemble_built items layers element :
  build_layers data_class items = Some layers ->
  for_ items assemble element = Ok (add_layers layers element).
Proof.
  revert layers element.
  induction items as [| [id layer_in] rest IH]; intros layers element H;
    simpl in H.
  - inversion H. reflexivity.
  - unfold build_layer in H. simpl in H. cbn [for_].
    destruct (load_material_id Material_new (LayerIn.material_id layer_in)
                data_class) as [material | e]; [| discriminate H].
    destruct (build_layers data_class rest) as [ls |]; [| discriminate H].
    inversion H; subst layers. cbn [Py.bind].
    apply (IH ls). reflexivity.
Qed.

Lemma assemble_Ok_built items element element' :
  for_ items assemble element = Ok element' ->
  exists layers,
    build_layers data_class items = Some layers
    /\ element' = add_layers layers element.
Proof.
  revert element.
  induction items as [| [id layer_in] rest IH]; intros element H;
    cbn [for_] in H.
  - inversion H. exists []. split; reflexivity.
  - simpl. unfold build_layer. simpl.
    destruct (load_material_id Material_new (LayerIn.material_id layer_in)
                data_class) as [material | e]; [| discriminate H].
    cbn [Py.bind] in H. apply IH in H. destruct H as (ls & -> & ->).
    eexists. split; reflexivity.
Qed.

Lemma build_layers_app l1 l2 ls1 ls2 :
  build_layers data_class l1 = Some ls1 ->
  build_layers data_class l2 = Some ls2 ->
  build_layers data_class (l1 ++ l2) = Some (ls1 ++ ls2).
Proof.
  revert ls1. induction l1 as [| item rest IH]; intros ls1 H1 H2; simpl in *.
  - inversion H1. exact H2.
  - destruct (build_layer data_class item) as [l |]; [| discriminate H1].
    destruct (build_layers data_class rest) as [ls |]; [| discriminate H1].
    inversion H1; subst ls1. rewrite (IH ls eq_refl H2). reflexivity.
Qed.

Lemma build_layers_rev items layers :
  build_layers data_class items = Some layers ->
  build_layers data_class (rev items) = Some (rev layers).
Proof.
  revert layers. induction items as [| item rest IH]; intros layers H;
    simpl in *.
  - inversion H. reflexivity.
  - destruct (build_layer data_class item) as [l |] eqn:El;
      [| discriminate H].
    destruct (build_layers data_class rest) as [ls |]; [| discriminate H].
    inversion H; subst layers. simpl.
    apply build_layers_app; [apply IH; reflexivity |].
    simpl. rewrite El. reflexivity.
Qed.

Lemma build_layers_known items :
  (exists layers, build_layers data_class items = Some layers)
  <-> Forall
        (fun item =>
           find_material (DataClass.material_bind data_class)
             (LayerIn.material_id (snd item)) <> None) items.
Proof.
  induction items as [| [id layer_in] rest IH]; simpl.
  - split; [constructor | exists []; reflexivity].
  - unfold build_layer, load_material_id. simpl.
    destruct (find_material (DataClass.material_bind data_class)
                (LayerIn.material_id layer_in)) as [m |] eqn:Em.
    + split.
      * intros [layers H]. constructor.
        -- simpl. rewrite Em. discriminate.
        -- apply IH.
           destruct (build_layers data_class rest) as [ls |];
             [exists ls; reflexivity | discriminate H].
      * intros H. inversion H as [| x xs _ Hrest]; subst.
        apply IH in Hrest. destruct Hrest as [ls ->].
        eexists. reflexivity.
    + split.
      * intros [layers H]. discriminate H.
      * intros H. inversion H as [| x xs Hx _]; subst.
        simpl in Hx. rewrite Em in Hx. contradiction Hx. reflexivity.
Qed.

Lemma build_layers_view items layers :
  build_layers data_class items = Some layers ->
  map layer_view layers = map layer_in_view items.
Proof.
  revert layers. induction items as [| [id layer_in] rest IH];
    intros layers H; simpl in H.
  - inversion H. reflexivity.
  - unfold build_layer, load_material_id in H. simpl in H.
    destruct (find_material (DataClass.material_bind data_class)
                (LayerIn.material_id layer_in)) as [m |]; [| discriminate H].
    destruct (build_layers data_class rest) as [ls |]; [| discriminate H].
    inversion H; subst layers. simpl. rewrite (IH ls eq_refl). reflexivity.
Qed.

End Assembly.

Lemma add_layers_frame (new_layers : list Layer.t) (e : BuildingElement.t) :
  BuildingElement.name (add_layers new_layers e) = BuildingElement.name e
  /\ BuildingElement.area (add_layers new_layers e) = BuildingElement.area e
  /\ BuildingElement.tilt (add_layers new_layers e) = BuildingElement.tilt e
  /\ BuildingElement.orientation (add_layers new_layers e)
     = BuildingElement.orientation e.
Proof.
  unfold add_layers. revert e.
  induction new_layers as [| l rest IH]; intros e; simpl.
  - repeat split.
  - specialize (IH (BuildingElement.add_layer l e)). simpl in IH. exact IH.
Qed.

Lemma add_layers_app (l1 l2 : list Layer.t) (e : BuildingElement.t) :
  add_layers (l1 ++ l2) e = add_layers l2 (add_layers l1 e).
Proof. unfold add_layers. apply fold_left_app. Qed.

Lemma apply_record_built element r reverse_layers data_class element' :
  apply_record element r reverse_layers data_class = Ok element' <->
  exists base layers,
    _set_basic_data element r = Ok base
    /\ build_layers data_class (layer_items r reverse_layers) = Some layers
    /\ element' = add_layers layers base.
Proof.
  unfold apply_record. split.
  - intros H. apply bind_Ok_inv in H. destruct H as (base & Hb & Hl).
    apply assemble_Ok_built in Hl. destruct Hl as (layers & Hl & ->).
    exists base, layers. repeat split; assumption.
  - intros (base & layers & -> & Hl & ->). simpl.
    apply assemble_built. exact Hl.
Qed.

(** ** [_set_basic_data] once more *)

Lemma _set_basic_data_has element r base :
  _set_basic_data element r = Ok base ->
  has_coefficients (coefficient_set_of (BuildingElement.class element)) r.
Proof.
  unfold _set_basic_data, BuildingElement.type_name, has_coefficients.
  simpl.
  destruct (BuildingElement.class element); simpl;
    destruct (ElementIn.outer_radiation r);
    destruct (ElementIn.outer_convection r);
    destruct (ElementIn.g_value r);
    destruct (ElementIn.a_conv r);
    destruct (ElementIn.shading_g_total r);
    destruct (ElementIn.shading_max_irr r);
    simpl; intros H; try discriminate H; repeat split; discriminate.
Qed.

Lemma _set_basic_data_frame element r base :
  _set_basic_data element r = Ok base ->
  BuildingElement.name base = BuildingElement.name element
  /\ BuildingElement.area base = BuildingElement.area element
  /\ BuildingElement.tilt base = BuildingElement.tilt element
  /\ BuildingElement.orientation base = BuildingElement.orientation element.
Proof.
  unfold _set_basic_data, BuildingElement.type_name. simpl.
  destruct (BuildingElement.class element); simpl;
    destruct (ElementIn.outer_radiation r);
    destruct (ElementIn.outer_convection r);
    destruct (ElementIn.g_value r);
    destruct (ElementIn.a_conv r);
    destruct (ElementIn.shading_g_total r);
    destruct (ElementIn.shading_max_irr r);
    simpl; intros H; inversion H; subst; simpl; repeat split.
Qed.

(** An element that carries the coefficients of a record already is left
    as it is by [_set_basic_data] with that record. *)
Lemma _set_basic_data_again before x r :
  coefficients_copied (coefficient_set_of (BuildingElement.class x))
    before x r ->
  has_coefficients (coefficient_set_of (BuildingElement.class x)) r ->
  _set_basic_data x r = Ok x.
Proof.
  destruct x as [k nm ar ti ori age ct ir ic ora oc g ac sg sm ls].
  unfold coefficients_copied, has_coefficients, _set_basic_data,
    BuildingElement.type_name.
  simpl.
  intros (_ & -> & -> & -> & -> & Hrest) Hhas.
  destruct k; simpl in *;
    repeat match goal with
           | H : _ /\ _ |- _ => destruct H
           end;
    subst;
    destruct (ElementIn.outer_radiation r);
    destruct (ElementIn.outer_convection r);
    destruct (ElementIn.g_value r);
    destruct (ElementIn.a_conv r);
    destruct (ElementIn.shading_g_total r);
    destruct (ElementIn.shading_max_irr r);
    simpl; try reflexivity;
    match goal with
    | H : None <> None |- _ => contradiction H; reflexivity
    end.
Qed.

Lemma sole_match_resolve q element data_class reverse_layers r :
  sole_match q element (DataClass.element_bind data_class) r ->
  resolve q element data_class reverse_layers
  = apply_record element r reverse_layers data_class.
Proof.
  intros H. destruct q as [year construction element_type | key_str];
    simpl in *.
  - destruct H as [key H].
    apply load_type_element_exactly_one with (key := key). exact H.
  - apply load_type_element_by_key_record. exact H.
Qed.

Lemma sole_match_same_class q element element1 bind r :
  BuildingElement.class element1 = BuildingElement.class element ->
  sole_match q element bind r -> sole_match q element1 bind r.
Proof.
  intros Hc. destruct q as [year construction element_type | key_str];
    simpl; [| tauto].
  unfold category, BuildingElement.type_name. rewrite Hc. tauto.
Qed.

(** X1.  A second resolution of the same element with the same request
    does not replace the construction: it succeeds again, leaves every
    coefficient as the first resolution set it, and puts the same layers
    after the layers of the first resolution once more. *)
Theorem resolving_twice_doubles_the_layers :
  forall q data_class element reverse_layers r element1,
    sole_match q element (DataClass.element_bind data_class) r ->
    resolve q element data_class reverse_layers = Ok element1 ->
    exists new_layers,
      BuildingElement.layer element1
      = BuildingElement.layer element ++ new_layers
      /\ resolve q element1 data_class reverse_layers
         = Ok (add_layers new_layers element1)
      /\ BuildingElement.layer (add_layers new_layers element1)
         = BuildingElement.layer element ++ new_layers ++ new_layers.
Proof.
  intros q data_class element reverse_layers r element1 Hsole H.
  rewrite (sole_match_resolve _ _ _ _ _ Hsole) in H.
  pose proof (apply_record_Ok _ _ _ _ _ H) as [Hcopied _].
  apply apply_record_built in H.
  destruct H as (base & layers & Hbase & Hbuilt & ->).
  pose proof (_set_basic_data_Ok _ _ _ Hbase) as [_ Hlayer].
  pose proof (_set_basic_data_has _ _ _ Hbase) as Hhas.
  pose proof (add_layers_fields layers base) as F. simpl in F.
  fold (add_layers layers base) in F.
  destruct F as (Fl & Fk & _).
  assert (Hk : BuildingElement.class (add_layers layers base)
               = BuildingElement.class element).
  { apply Hcopied. }
  exists layers. split; [rewrite Fl, Hlayer; reflexivity |]. split.
  - rewrite (sole_match_resolve q (add_layers layers base) data_class
               reverse_layers r
               (sole_match_same_class _ _ _ _ _ Hk Hsole)).
    apply apply_record_built.
    exists (add_layers layers base), layers. split; [| split].
    + apply _set_basic_data_again with (before := element);
        rewrite Hk; assumption.
    + exact Hbuilt.
    + reflexivity.
  - pose proof (add_layers_fields layers (add_layers layers base)) as G.
    simpl in G. fold (add_layers layers (add_layers layers base)) in G.
    destruct G as (Gl & _).
    rewrite Gl, Fl, Hlayer, <- app_assoc. reflexivity.
Qed.

Lemma resolving_twice_doubles_the_layers_witness :
  exists element1 new_layers,
    resolve (ByKey "OuterWall_1919_1948_heavy")
      (example_element BuildingElement.OuterWall) example_data false
    = Ok element1
    /\ BuildingElement.layer element1 = [] ++ new_layers
    /\ resolve (ByKey "OuterWall_1919_1948_heavy") element1 example_data false
       = Ok (add_layers new_layers element1)
    /\ BuildingElement.layer (add_layers new_layers element1)
       = [] ++ new_layers ++ new_layers.
Proof.
  destruct (resolve (ByKey "OuterWall_1919_1948_heavy")
              (example_element BuildingElement.OuterWall) example_data false)
    as [element1 | e] eqn:E; [| discriminate E].
  destruct (resolving_twice_doubles_the_layers
              (ByKey "OuterWall_1919_1948_heavy") example_data
              (example_element BuildingElement.OuterWall) false
              example_outer_wall element1 eq_refl E)
    as (new_layers & H1 & H2 & H3).
  exists element1, new_layers. repeat split; assumption.
Defined.

(** X2.  [reverse_layers] changes the order of the new layers and nothing
    else: when a resolution that matches one record succeeds with
    [reverse_layers] false, it succeeds with [reverse_layers] true as well,
    on an element that differs only in that the new layers, the same
    layers with the same materials, come in the opposite order. *)
Theorem reverse_layers_mirrors_the_new_layers :
  forall q data_class element r forward,
    sole_match q element (DataClass.element_bind data_class) r ->
    resolve q element data_class false = Ok forward ->
    exists base new_layers,
      BuildingElement.layer base = BuildingElement.layer element
      /\ forward = add_layers new_layers base
      /\ resolve q element data_class true
         = Ok (add_layers (rev new_layers) base).
Proof.
  intros q data_class element r forward Hsole H.
  rewrite (sole_match_resolve q element data_class false r Hsole) in H.
  rewrite (sole_match_resolve q element data_class true r Hsole).
  apply apply_record_built in H.
  destruct H as (base & layers & Hbase & Hbuilt & ->).
  exists base, layers. split; [| split].
  - apply (_set_basic_data_Ok _ _ _ Hbase).
  - reflexivity.
  - apply apply_record_built. exists base, (rev layers).
    split; [exact Hbase |]. split; [| reflexivity].
    apply build_layers_rev in Hbuilt. exact Hbuilt.
Qed.

Lemma reverse_layers_mirrors_the_new_layers_witness :
  exists forward base new_layers,
    resolve (ByCharacteristics 1930 "heavy" None)
      (example_element BuildingElement.InnerWall) example_data false
    = Ok forward
    /\ BuildingElement.layer base = []
    /\ forward = add_layers new_layers base
    /\ resolve (ByCharacteristics 1930 "heavy" None)
         (example_element BuildingElement.InnerWall) example_data true
       = Ok (add_layers (rev new_layers) base).
Proof.
  destruct (resolve (ByCharacteristics 1930 "heavy" None)
              (example_element BuildingElement.InnerWall) example_data false)
    as [forward | e] eqn:E; [| discriminate E].
  assert (H : sole_match (ByCharacteristics 1930 "heavy" None)
                (example_element BuildingElement.InnerWall)
                (DataClass.element_bind example_data) example_inner_wall).
  { exists "InnerWall_1919_1948_heavy".
    exists [("version", Version "0.7");
            ("OuterWall_1919_1948_heavy", TypeElement example_outer_wall)],
      [].
    split; [reflexivity |]. split.
    - unfold matches. simpl.
      repeat split; try discriminate; try reflexivity.
    - split; apply no_match_of_bool; reflexivity. }
  destruct (reverse_layers_mirrors_the_new_layers _ example_data
              (example_element BuildingElement.InnerWall)
              example_inner_wall forward H E)
    as (base & new_layers & H1 & H2 & H3).
  exists forward, base, new_layers. repeat split; assumption.
Defined.

(** ** What a resolution leaves alone *)

Lemma extends_refl e : extends e e.
Proof.
  unfold extends. repeat split. exists []. rewrite app_nil_r. reflexivity.
Qed.

Lemma extends_trans e1 e2 e3 : extends e1 e2 -> extends e2 e3 -> extends e1 e3.
Proof.
  unfold extends.
  intros (Hk1 & Hn1 & Ha1 & Ht1 & Ho1 & l1 & Hl1)
         (Hk2 & Hn2 & Ha2 & Ht2 & Ho2 & l2 & Hl2).
  rewrite Hk2, Hn2, Ha2, Ht2, Ho2. repeat split; try assumption.
  exists (l1 ++ l2). rewrite Hl2, Hl1, app_assoc. reflexivity.
Qed.

Lemma apply_record_extends element r reverse_layers data_class element' :
  apply_record element r reverse_layers data_class = Ok element' ->
  extends element element'.
Proof.
  intros H.
  pose proof (apply_record_Ok _ _ _ _ _ H) as [Hcopied [new_layers [Hl _]]].
  apply apply_record_built in H.
  destruct H as (base & layers & Hbase & _ & ->).
  unfold extends.
  destruct (add_layers_frame layers base) as (-> & -> & -> & ->).
  destruct (_set_basic_data_frame _ _ _ Hbase) as (-> & -> & -> & ->).
  repeat split.
  - apply Hcopied.
  - exists new_layers. exact Hl.
Qed.

Lemma for_preserves {A S} (R : S -> S -> Prop) (l : list A)
    (body : A -> S -> result S) :
  (forall s, R s s) ->
  (forall s1 s2 s3, R s1 s2 -> R s2 s3 -> R s1 s3) ->
  (forall x s s', body x s = Ok s' -> R s s') ->
  forall s s', for_ l body s = Ok s' -> R s s'.
Proof.
  intros Hrefl Htrans Hbody.
  induction l as [| x l IH]; intros s s' H; cbn [for_] in H.
  - inversion H. apply Hrefl.
  - apply bind_Ok_inv in H. destruct H as (s1 & H1 & H2).
    apply Htrans with (s2 := s1); [apply (Hbody x), H1 | apply IH, H2].
Qed.

(** X3.  Whatever the database holds and however many records match, a
    resolution that returns, by characteristics or by key, returns an
    element of the same class with the same name, area, tilt and
    orientation, whose layers begin with the layers the element had. *)
Theorem resolution_keeps_geometry_and_earlier_layers :
  forall q data_class element reverse_layers element',
    resolve q element data_class reverse_layers = Ok element' ->
    extends element element'.
Proof.
  intros q data_class element reverse_layers element' H.
  destruct q as [year construction element_type | key_str]; simpl in H.
  - unfold load_type_element in H. revert H.
    apply for_preserves;
      [apply extends_refl | apply extends_trans |].
    intros [key e] s s' Hstep.
    destruct (negb (String.eqb key "version"));
      [| inversion Hstep; apply extends_refl].
    apply bind_Ok_inv in Hstep. destruct Hstep as (element_in & _ & Hstep).
    match type of Hstep with
    | (if ?c then _ else _) = _ => destruct c
    end; [| inversion Hstep; apply extends_refl].
    apply (apply_record_extends s element_in reverse_layers data_class).
    exact Hstep.
  - unfold load_type_element_by_key in H.
    apply bind_Ok_inv in H. destruct H as (e & _ & H).
    apply bind_Ok_inv in H. destruct H as (element_in & _ & H).
    apply (apply_record_extends element element_in reverse_layers data_class).
    exact H.
Qed.

Lemma resolution_keeps_geometry_and_earlier_layers_witness :
  exists element',
    resolve (ByCharacteristics 1930 "heavy" (Some ""))
      (example_element BuildingElement.Floor) example_data false
    = Ok element'
    /\ extends (example_element BuildingElement.Floor) element'.
Proof.
  destruct (resolve (ByCharacteristics 1930 "heavy" (Some ""))
              (example_element BuildingElement.Floor) example_data false)
    as [element' | e] eqn:E; [| discriminate E].
  exists element'. split; [reflexivity |].
  apply (resolution_keeps_geometry_and_earlier_layers _ _ _ _ _ E).
Defined.

(** ** Several matching records *)

Lemma scan_as_matching year construction data_class reverse_layers cat bind
    element :
  Forall version_or_record bind ->
  scan year construction data_class reverse_layers cat bind element
  = for_ (matching_records cat year construction bind)
      (fun r element => apply_record element r reverse_layers data_class)
      element.
Proof.
  intros H. revert element.
  induction H as [| [key e] rest Hitem _ IH]; intros element.
  - reflexivity.
  - change ((key, e) :: rest) with ([(key, e)] ++ rest).
    rewrite scan_app.
    destruct Hitem as [Hv | [r Hr]]; simpl in Hv || simpl in Hr.
    + subst key.
      rewrite scan_passed_over by (left; reflexivity). simpl.
      rewrite IH. destruct e as [v | r]; reflexivity.
    + subst e. simpl.
      destruct (matchesb cat year construction key r) eqn:Em.
      * apply matchesb_iff in Em. rewrite scan_match by exact Em.
        cbn [for_].
        destruct (apply_record element r reverse_layers data_class)
          as [element1 | err]; simpl; [apply IH | reflexivity].
      * rewrite scan_passed_over.
        -- simpl. apply IH.
        -- right. exists r. split; [reflexivity |].
           simpl. intros Hm. apply matchesb_iff in Hm. rewrite Hm in Em.
           discriminate Em.
Qed.

Lemma coefficients_copied_trans s e0 e1 e2 r1 r2 :
  coefficients_copied s e0 e1 r1 ->
  coefficients_copied s e1 e2 r2 ->
  coefficients_copied s e0 e2 r2.
Proof.
  unfold coefficients_copied.
  intros (Hk1 & _ & _ & _ & _ & H1) (Hk2 & Ha & Hc & Hir & Hic & H2).
  rewrite Hk2. repeat split; try assumption.
  destruct s; repeat match goal with
                     | H : _ /\ _ |- _ => destruct H
                     end; repeat split; congruence.
Qed.

Lemma apply_all_Ok data_class reverse_layers records :
  forall element element',
    for_ records
      (fun r element => apply_record element r reverse_layers data_class)
      element = Ok element' ->
    BuildingElement.class element' = BuildingElement.class element
    /\ (records = [] -> element' = element)
    /\ (exists new_layers,
           BuildingElement.layer element'
           = BuildingElement.layer element ++ new_layers
           /\ map layer_view new_layers
              = flat_map
                  (fun r => map layer_in_view (layer_items r reverse_layers))
                  records)
    /\ (forall earlier r,
           records = earlier ++ [r] ->
           coefficients_copied
             (coefficient_set_of (BuildingElement.class element))
             element element' r).
Proof.
  induction records as [| r1 rest IH]; intros element element' H;
    cbn [for_] in H.
  - inversion H; subst. split; [reflexivity |]. split; [reflexivity |].
    split.
    + exists []. rewrite app_nil_r. split; reflexivity.
    + intros earlier r E. destruct earlier; discriminate E.
  - apply bind_Ok_inv in H. destruct H as (element1 & H1 & H2).
    pose proof (apply_record_Ok _ _ _ _ _ H1) as (Hc1 & new1 & Hl1 & Hv1).
    destruct (IH _ _ H2) as (Hk & Hnil & (new2 & Hl2 & Hv2) & Hlast).
    assert (Hk1 : BuildingElement.class element1
                  = BuildingElement.class element) by apply Hc1.
    split; [rewrite Hk; exact Hk1 |].
    split; [intros E; discriminate E |].
    split.
    + exists (new1 ++ new2). split.
      * rewrite Hl2, Hl1, app_assoc. reflexivity.
      * simpl. rewrite map_app, Hv2.
        unfold layer_items in *. rewrite Hv1. reflexivity.
    + intros earlier r E.
      destruct rest as [| r2 rest'].
      * destruct earlier as [| x [| y earlier']]; try discriminate E.
        inversion E; subst r. rewrite (Hnil eq_refl). exact Hc1.
      * destruct earlier as [| x earlier']; [discriminate E |].
        inversion E; subst x.
        apply coefficients_copied_trans with (e1 := element1) (r1 := r1);
          [exact Hc1 |].
        rewrite <- Hk1. apply Hlast with (earlier := earlier').
        assumption.
Qed.

(** X4.  On a table of version entry and records, resolve-by-characteristics
    applies every matching record in the order of the table.  A call that
    returns has put after the element's layers the layers of all matching
    records, record after record; the coefficients it leaves are those of
    the last matching record. *)
Theorem every_match_adds_layers_last_match_sets_coefficients :
  forall data_class element year construction element_type reverse_layers
         element',
    Forall version_or_record (DataClass.element_bind data_class) ->
    load_type_element element year construction data_class element_type
      reverse_layers = Ok element' ->
    let found :=
      matching_records (category element element_type) year construction
        (DataClass.element_bind data_class) in
    (exists new_layers,
        BuildingElement.layer element'
        = BuildingElement.layer element ++ new_layers
        /\ map layer_view new_layers
           = flat_map
               (fun r => map layer_in_view (layer_items r reverse_layers))
               found)
    /\ (forall earlier r,
           found = earlier ++ [r] ->
           coefficients_copied
             (coefficient_set_of (BuildingElement.class element))
             element element' r).
Proof.
  intros data_class element year construction element_type reverse_layers
    element' Hwf H found.
  rewrite load_type_element_category, scan_as_matching in H by exact Hwf.
  apply apply_all_Ok in H. fold found in H.
  destruct H as (_ & _ & Hl & Hc). split; assumption.
Qed.

Lemma every_match_adds_layers_last_match_sets_coefficients_witness :
  exists element' new_layers,
    load_type_element (example_element BuildingElement.Floor) 1930 "heavy"
      example_data (Some "") false = Ok element'
    /\ BuildingElement.layer element' = [] ++ new_layers
    /\ map layer_view new_layers
       = map layer_in_view (ElementIn.layer example_outer_wall)
         ++ map layer_in_view (ElementIn.layer example_inner_wall)
    /\ BuildingElement.construction_type element'
       = Some (ElementIn.construction_type example_inner_wall).
Proof.
  destruct (load_type_element (example_element BuildingElement.Floor) 1930
              "heavy" example_data (Some "") false)
    as [element' | e] eqn:E; [| discriminate E].
  destruct (every_match_adds_layers_last_match_sets_coefficients
              example_data (example_element BuildingElement.Floor) 1930
              "heavy" (Some "") false element'
              (version_or_recordb_sound example_bind eq_refl) E)
    as ((new_layers & Hl & Hv) & Hc).
  exists element', new_layers. split; [reflexivity |].
  split; [exact Hl |]. split.
  - rewrite Hv. simpl. reflexivity.
  - apply (Hc [example_outer_wall] example_inner_wall eq_refl).
Defined.

(** ** When a resolution succeeds *)

Lemma apply_record_succeeds_iff element r reverse_layers data_class :
  (exists element',
      apply_record element r reverse_layers data_class = Ok element')
  <-> has_coefficients (coefficient_set_of (BuildingElement.class element)) r
      /\ materials_known data_class r.
Proof.
  split.
  - intros [element' H]. apply apply_record_built in H.
    destruct H as (base & layers & Hbase & Hbuilt & _).
    split; [apply (_set_basic_data_has _ _ _ Hbase) |].
    assert (Hk : Forall
                   (fun item =>
                      find_material (DataClass.material_bind data_class)
                        (LayerIn.material_id (snd item)) <> None)
                   (layer_items r reverse_layers)).
    { apply build_layers_known. exists layers. exact Hbuilt. }
    unfold materials_known, layer_items in *.
    destruct reverse_layers; [| exact Hk].
    apply Forall_rev in Hk. rewrite rev_involutive in Hk. exact Hk.
  - intros [Hc Hm]. apply apply_record_total; assumption.
Qed.

(** X5.  Resolve-by-key returns an element exactly when the key holds a
    record, the record has the members that the class of the element reads,
    and every material the record's layers refer to is in the material
    table. *)
Theorem load_type_element_by_key_succeeds_iff :
  forall data_class element key_str reverse_layers,
    (exists element',
        load_type_element_by_key element key_str data_class reverse_layers
        = Ok element')
    <-> exists r,
        get (DataClass.element_bind data_class) key_str = Ok (TypeElement r)
        /\ has_coefficients
             (coefficient_set_of (BuildingElement.class element)) r
        /\ materials_known data_class r.
Proof.
  intros data_class element key_str reverse_layers. split.
  - intros [element' H]. unfold load_type_element_by_key in H.
    apply bind_Ok_inv in H. destruct H as (e & Hget & H).
    apply bind_Ok_inv in H. destruct H as (r & Hrec & H).
    destruct e as [v | r0]; simpl in Hrec; [discriminate Hrec |].
    inversion Hrec; subst r0.
    exists r. split; [exact Hget |].
    apply (apply_record_succeeds_iff element r reverse_layers data_class).
    exists element'. exact H.
  - intros (r & Hget & Hc & Hm).
    rewrite (load_type_element_by_key_record _ _ _ _ _ Hget).
    apply apply_record_total; assumption.
Qed.

Lemma apply_all_succeeds_iff data_class reverse_layers records :
  forall element,
    (exists element',
        for_ records
          (fun r element => apply_record element r reverse_layers data_class)
          element = Ok element')
    <-> Forall
          (fun r =>
             has_coefficients
               (coefficient_set_of (BuildingElement.class element)) r
             /\ materials_known data_class r)
          records.
Proof.
  induction records as [| r rest IH]; intros element; cbn [for_].
  - split; [constructor | exists element; reflexivity].
  - split.
    + intros [element' H]. apply bind_Ok_inv in H.
      destruct H as (element1 & H1 & H2).
      pose proof (apply_record_Ok _ _ _ _ _ H1) as [Hc _].
      constructor.
      * apply (apply_record_succeeds_iff element r reverse_layers data_class).
        exists element1. exact H1.
      * replace (BuildingElement.class element)
          with (BuildingElement.class element1) by apply Hc.
        apply IH. exists element'. exact H2.
    + intros H. inversion H as [| x xs Hr Hrest]; subst.
      apply (apply_record_succeeds_iff element r reverse_layers data_class)
        in Hr.
      destruct Hr as [element1 H1]. rewrite H1. cbn [Py.bind].
      pose proof (apply_record_Ok _ _ _ _ _ H1) as [Hc _].
      apply IH.
      replace (BuildingElement.class element1)
        with (BuildingElement.class element) by (symmetry; apply Hc).
      exact Hrest.
Qed.

(** X6.  On a table of version entry and records, resolve-by-characteristics
    returns an element exactly when every matching record has the members
    that the class of the element reads and refers only to materials of
    the material table; one incomplete matching record makes the whole
    call raise. *)
Theorem load_type_element_succeeds_iff :
  forall data_class element year construction element_type reverse_layers,
    Forall version_or_record (DataClass.element_bind data_class) ->
    ((exists element',
         load_type_element element year construction data_class element_type
           reverse_layers = Ok element')
     <-> Forall
           (fun r =>
              has_coefficients
                (coefficient_set_of (BuildingElement.class element)) r
              /\ materials_known data_class r)
           (matching_records (category element element_type) year
              construction (DataClass.element_bind data_class))).
Proof.
  intros data_class element year construction element_type reverse_layers
    Hwf.
  rewrite load_type_element_category, scan_as_matching by exact Hwf.
  apply apply_all_succeeds_iff.
Qed.

Lemma load_type_element_succeeds_iff_witness :
  ~ exists element',
      load_type_element (example_element BuildingElement.OuterWall) 1930
        "heavy" example_data (Some "") false = Ok element'.
Proof.
  intros H.
  apply (load_type_element_succeeds_iff example_data
           (example_element BuildingElement.OuterWall) 1930 "heavy"
           (Some "") false
           (version_or_recordb_sound example_bind eq_refl)) in H.
  simpl in H. inversion H as [| x xs _ Hrest]; subst.
  inversion Hrest as [| y ys Hinner _]; subst.
  destruct Hinner as [[Hmissing _] _]. apply Hmissing. reflexivity.
Defined.

Lemma load_type_element_by_key_succeeds_iff_witness :
  exists element',
    load_type_element_by_key (example_element BuildingElement.OuterWall)
      "OuterWall_1919_1948_heavy" example_data true = Ok element'.
Proof.
  apply (proj2 (load_type_element_by_key_succeeds_iff example_data
                  (example_element BuildingElement.OuterWall)
                  "OuterWall_1919_1948_heavy" true)).
  exists example_outer_wall. split; [reflexivity |]. split.
  - simpl. split; discriminate.
  - unfold materials_known. simpl. repeat constructor; discriminate.
Defined.

(** * Further properties of the estimator *)

Local Open Scope Q_scope.

(** ** The two area dictionaries after a run *)

Lemma plain_loop_lookup (names : list (string * (Q * Q))) (area : Q) :
  forall d d' k,
    for_ names (fun '(key, value) d => Ok (NumDict.set d (snd value) area)) d
    = Ok d' ->
    NumDict.lookup d' k
    = if names_hit names k then Some area else NumDict.lookup d k.
Proof.
  induction names as [| [name [tilt o]] rest IH]; intros d d' k H;
    cbn [for_] in H.
  - inversion H. reflexivity.
  - cbn [Py.bind snd] in H. rewrite (IH _ _ k H), lookup_set.
    unfold names_hit. cbn [existsb snd].
    destruct (Qeq_bool o k); simpl.
    + destruct (existsb _ rest); reflexivity.
    + reflexivity.
Qed.

Lemma share_loop_lookup total nr (names : list (string * (Q * Q))) :
  forall d d' k,
    for_ names (orientation_share total nr) d = Ok d' ->
    NumDict.lookup d' k
    = if shares_hit names k then Some (total / inject_Z nr)
      else NumDict.lookup d k.
Proof.
  induction names as [| [name [tilt o]] rest IH]; intros d d' k H;
    cbn [for_] in H.
  - inversion H. reflexivity.
  - apply bind_Ok_inv in H. destruct H as (d1 & H1 & H2).
    rewrite (IH _ _ k H2).
    unfold shares_hit. cbn [existsb snd].
    fold (shares_hit rest k).
    unfold orientation_share, Py.div in H1. cbn [snd] in H1.
    unfold cardinal.
    destruct (Qeq_bool o 0 || Qeq_bool o 180.0).
    + destruct (Qeq_bool (inject_Z nr) 0); [discriminate H1 |].
      inversion H1; subst d1. rewrite lookup_set. simpl.
      destruct (Qeq_bool o k), (shares_hit rest k); reflexivity.
    + destruct (Qeq_bool o 90 || Qeq_bool o 270).
      * destruct (Qeq_bool (inject_Z nr) 0); [discriminate H1 |].
        inversion H1; subst d1. rewrite lookup_set. simpl.
        destruct (Qeq_bool o k), (shares_hit rest k); reflexivity.
      * inversion H1; subst d1. reflexivity.
Qed.

(** X7.  What the two area dictionaries hold after a completed run, for
    any name tables and any earlier content.  Under an orientation [k],
    [outer_area] holds the ground floor area if a ground floor name has
    orientation [k]; else the roof area if a roof name has it; else the
    outer-wall share if an outer wall name has it and [k] is 0, 90, 180 or
    270; else what it held before.  [window_area] holds the window share
    if a window name has orientation [k] and [k] is 0, 90, 180 or 270, and
    else what it held before: a wall or window of any other orientation is
    given no area. *)
Theorem area_dictionaries_after_generate :
  forall self self' k,
    generate_archetype self = Ok self' ->
    NumDict.lookup (SingleFamilyDwelling.outer_area self') k
    = (if names_hit (SingleFamilyDwelling.ground_floor_names self) k
       then Some (SingleFamilyDwelling._est_ground_floor_area self')
       else if names_hit (SingleFamilyDwelling.roof_names self) k
       then Some (SingleFamilyDwelling._est_roof_area self')
       else if shares_hit (SingleFamilyDwelling.outer_wall_names self) k
       then Some (SingleFamilyDwelling._est_outer_wall_area self'
                  / inject_Z (SingleFamilyDwelling.nr_of_orientation self))
       else NumDict.lookup (SingleFamilyDwelling.outer_area self) k)
    /\ NumDict.lookup (SingleFamilyDwelling.window_area self') k
       = (if shares_hit (SingleFamilyDwelling.window_names self) k
          then Some (SingleFamilyDwelling._est_win_area self'
                     / inject_Z (SingleFamilyDwelling.nr_of_orientation self))
          else NumDict.lookup (SingleFamilyDwelling.window_area self) k).
Proof.
  intros self self' k E.
  apply generate_archetype_Ok in E.
  destruct E as (_ & _ & _ & _ & _ & _ & (walls & Ew & Erest) & Ewin & _).
  split.
  - apply bind_Ok_inv in Erest. destruct Erest as (walls1 & Er & Eg).
    rewrite (plain_loop_lookup _ _ _ _ k Eg).
    rewrite (plain_loop_lookup _ _ _ _ k Er).
    rewrite (share_loop_lookup _ _ _ _ _ k Ew).
    reflexivity.
  - apply (share_loop_lookup _ _ _ _ _ k Ewin).
Qed.

Lemma area_dictionaries_after_generate_witness :
  exists self',
    generate_archetype
      (__init__ 1 2.5 120 None None None None None [(45, 7)] [])
    = Ok self'
    /\ NumDict.lookup (SingleFamilyDwelling.outer_area self') 45 = Some 7
    /\ NumDict.lookup (SingleFamilyDwelling.outer_area self') (-1)
       = Some (SingleFamilyDwelling._est_roof_area self')
    /\ NumDict.lookup (SingleFamilyDwelling.window_area self') 45 = None.
Proof.
  destruct (generate_archetype
              (__init__ 1 2.5 120 None None None None None [(45, 7)] []))
    as [self' | e] eqn:E; [| discriminate E].
  exists self'. split; [reflexivity |].
  pose proof (area_dictionaries_after_generate _ self' 45 E) as [H45 W45].
  pose proof (area_dictionaries_after_generate _ self' (-1) E) as [Hroof _].
  split; [exact H45 |]. split; [exact Hroof | exact W45].
Defined.

(** ** The wall areas of a run *)

Lemma generate_archetype_Ok_walls self self' :
  generate_archetype self = Ok self' ->
  exists extra,
    SingleFamilyDwelling._est_extra_floor_area self = Some extra
    /\ let living := SingleFamilyDwelling._living_area_per_floor self' in
       let facade :=
         SingleFamilyDwelling._est_facade_to_floor_area self
         * (living + extra) in
       SingleFamilyDwelling._est_facade_area self' = Some facade
       /\ SingleFamilyDwelling._est_cellar_wall_area self'
          = SingleFamilyDwelling.est_factor_cellar_area self
            * SingleFamilyDwelling._est_factor_heated_cellar self
            * facade
       /\ SingleFamilyDwelling._est_outer_wall_area self'
          = heated_floors self * facade
            - SingleFamilyDwelling._est_cellar_wall_area self'
            - SingleFamilyDwelling._est_win_area self'.
Proof.
  unfold generate_archetype, Py.div. fold (heated_floors self).
  destruct (Qeq_bool (heated_floors self) 0) eqn:Eh; simpl;
    [discriminate |].
  destruct (SingleFamilyDwelling._est_extra_floor_area self) as [extra |];
    simpl; [| discriminate].
  match goal with
  | |- context [for_ (SingleFamilyDwelling.outer_wall_names self) ?f ?d] =>
      destruct (for_ (SingleFamilyDwelling.outer_wall_names self) f d)
        as [walls |] eqn:Ew; simpl; [| discriminate]
  end.
  match goal with
  | |- context [for_ (SingleFamilyDwelling.window_names self) ?f ?d] =>
      destruct (for_ (SingleFamilyDwelling.window_names self) f d)
        as [windows |] eqn:Ewin; simpl; [| discriminate]
  end.
  match goal with
  | |- context [for_ (SingleFamilyDwelling.roof_names self) ?f ?d] =>
      destruct (for_ (SingleFamilyDwelling.roof_names self) f d)
        as [walls1 |] eqn:Er; simpl; [| discriminate]
  end.
  match goal with
  | |- context [for_ (SingleFamilyDwelling.ground_floor_names self) ?f ?d] =>
      destruct (for_ (SingleFamilyDwelling.ground_floor_names self) f d)
        as [walls2 |] eqn:Eg; simpl; [| discriminate]
  end.
  intros H. inversion H; subst self'; clear H. simpl.
  exists extra. repeat split; reflexivity.
Qed.

Lemma extra_floor_area_positive neighbours q :
  extra_floor_area neighbours = Some q -> 0 < q.
Proof.
  small_Z neighbours; simpl; intros H; inversion H; reflexivity.
Qed.

(** X8.  For a valid input every area a completed run estimates is
    positive: the living area per floor (which is at most the net leased
    area), the ground floor area, the roof area, the window area and the
    outer wall area; the cellar wall area is not negative. *)
Theorem valid_input_gives_positive_areas :
  forall number_of_floors height_of_floors net_leased_area
         residential_layout neighbour_buildings attic cellar dormer
         outer_area window_area self',
    valid_input number_of_floors net_leased_area residential_layout
      neighbour_buildings attic cellar dormer ->
    generate_archetype
      (__init__ number_of_floors height_of_floors net_leased_area
         residential_layout neighbour_buildings attic cellar dormer
         outer_area window_area)
    = Ok self' ->
    0 < SingleFamilyDwelling._living_area_per_floor self'
    /\ SingleFamilyDwelling._living_area_per_floor self' <= net_leased_area
    /\ 0 < SingleFamilyDwelling._est_ground_floor_area self'
    /\ 0 < SingleFamilyDwelling._est_roof_area self'
    /\ 0 < SingleFamilyDwelling._est_win_area self'
    /\ 0 <= SingleFamilyDwelling._est_cellar_wall_area self'
    /\ 0 < SingleFamilyDwelling._est_outer_wall_area self'.
Proof.
  intros n height area layout neighbours attic cellar dormer oa wa self'
    (Hn & Harea & Hlayout & Hneigh & Hattic & Hcellar & Hdormer) E.
  pose proof (generate_archetype_Ok_walls _ _ E)
    as (q & Hq & Hfacade & Hcw & How).
  pose proof (generate_archetype_Ok _ _ E)
    as (Eh & _ & Hliving & Hroof & Hground & Hwin & _).
  rewrite init_neighbours in Hq.
  apply extra_floor_area_positive in Hq.
  rewrite How, Hcw, Hwin, Hroof, Hground. clear How Hcw Hwin Hroof Hground.
  clear Hfacade E.
  set (self := __init__ n height area layout neighbours attic cellar dormer
                 oa wa) in *.
  set (L := SingleFamilyDwelling._living_area_per_floor self') in *.
  destruct (init_factors_nonnegative n height area layout neighbours attic
              cellar dormer oa wa) as (Hc0 & Ha0 & _).
  fold self in Hc0, Ha0.
  assert (HN : 1 <= inject_Z n).
  { change 1 with (inject_Z 1). rewrite <- Zle_Qle. exact Hn. }
  assert (Hh : 1 + SingleFamilyDwelling._est_factor_heated_cellar self
               <= heated_floors self).
  { unfold heated_floors.
    change (SingleFamilyDwelling.number_of_floors self) with n.
    change (SingleFamilyDwelling.est_living_area_factor self) with 0.75.
    lra. }
  apply Qeq_bool_false_neq in Eh.
  change (SingleFamilyDwelling.net_leased_area self) with area in *.
  assert (HA : area == L * heated_floors self).
  { rewrite Hliving. field. exact Eh. }
  assert (HL : 0 < L).
  { rewrite Hliving. apply Qlt_shift_div_l; lra. }
  clear Hliving Eh.
  change (SingleFamilyDwelling.est_bottom_building_closure self) with 1.33.
  change (SingleFamilyDwelling.est_upper_building_closure self) with 1.0.
  change (SingleFamilyDwelling.est_factor_win_area self) with 0.2.
  change (SingleFamilyDwelling.est_factor_cellar_area self) with 0.5.
  generalize dependent (heated_floors self). intros h Hh HA.
  unfold self in *. clear self.
  rewrite init_heated_cellar, init_layout, init_dormer in *.
  destruct (init_attic n height area layout neighbours attic cellar dormer
              oa wa) as (_ & -> & ->).
  clear Ha0.
  split; [exact HL |].
  split; [nra |].
  split; [lra |].
  split.
  - clear Hh Hc0 Hlayout Hcellar Hneigh.
    revert Hdormer Hattic.
    generalize (setter dormer) (setter attic). intros d a.
    small_Z d; small_Z a;
      cbn [or_preset dormer_factor area_per_floor_coeff area_per_roof_coeff
             heated_attic_factor];
      intros Hd Ha;
      try (contradiction Hd; reflexivity);
      try (contradiction Ha; reflexivity);
      match goal with
      | |- 0 < (if Qeq_bool ?p 0 then _ else _) =>
          destruct (Qeq_bool p 0) eqn:Ez;
            [apply Qeq_bool_iff in Ez | apply Qeq_bool_false_neq in Ez]
      end;
      first [ lra | nra | exfalso; apply Ez; ring ].
  - split; [lra |].
    clear Hdormer Hattic Hneigh.
    revert Hlayout Hcellar Hc0 Hh.
    generalize (setter layout) (setter cellar). intros p c.
    small_Z p; small_Z c;
      cbn [or_preset facade_to_floor_ratio heated_cellar_factor];
      intros Hp Hc Hc0 Hh;
      try (contradiction Hp; reflexivity);
      try (contradiction Hc; reflexivity);
      split; nra.
Qed.

Lemma valid_input_gives_positive_areas_witness :
  exists self',
    generate_archetype
      (__init__ 2 2.5 150 (Some 1%Z) (Some 2%Z) (Some 1%Z) (Some 3%Z)
         (Some 1%Z) [] [])
    = Ok self'
    /\ 0 < SingleFamilyDwelling._est_roof_area self'
    /\ 0 < SingleFamilyDwelling._est_outer_wall_area self'.
Proof.
  destruct (generate_archetype
              (__init__ 2 2.5 150 (Some 1%Z) (Some 2%Z) (Some 1%Z)
                 (Some 3%Z) (Some 1%Z) [] []))
    as [self' | e] eqn:E; [| discriminate E].
  exists self'. split; [reflexivity |].
  assert (V : valid_input 2 150 (Some 1%Z) (Some 2%Z) (Some 1%Z) (Some 3%Z)
                (Some 1%Z)).
  { unfold valid_input. simpl. repeat split; try discriminate; reflexivity. }
  destruct (valid_input_gives_positive_areas 2 2.5 150 (Some 1%Z)
              (Some 2%Z) (Some 1%Z) (Some 3%Z) (Some 1%Z) [] [] self' V E)
    as (_ & _ & _ & Hroof & _ & _ & Hwall).
  split; assumption.
Defined.

(** X9.  With a non-heated attic (attic type 1) the dormer has no effect:
    whatever the dormer value, a completed run sets the roof area to 1.33
    times the living area per floor, because the product with the
    area-per-floor coefficient 0.0 is zero and the top-floor area takes
    its place. *)
Theorem unheated_attic_roof_ignores_dormer :
  forall number_of_floors height_of_floors net_leased_area
         residential_layout neighbour_buildings attic cellar dormer
         outer_area window_area self',
    setter attic = 1%Z ->
    generate_archetype
      (__init__ number_of_floors height_of_floors net_leased_area
         residential_layout neighbour_buildings attic cellar dormer
         outer_area window_area)
    = Ok self' ->
    SingleFamilyDwelling._est_roof_area self'
    = 1.33 * SingleFamilyDwelling._living_area_per_floor self'.
Proof.
  intros n height area layout neighbours attic cellar dormer oa wa self'
    Hattic E.
  apply generate_archetype_Ok in E.
  destruct E as (_ & _ & _ & Hroof & _).
  destruct (init_attic n height area layout neighbours attic cellar dormer
              oa wa) as (_ & Hpf & Hpr).
  rewrite Hpf, Hpr, Hattic in Hroof.
  cbn [or_preset area_per_floor_coeff area_per_roof_coeff] in Hroof.
  rewrite Hroof.
  match goal with
  | |- (if Qeq_bool ?p 0 then _ else _) = _ =>
      replace (Qeq_bool p 0) with true; [reflexivity |]
  end.
  symmetry. apply Qeq_bool_iff. ring.
Qed.

Lemma unheated_attic_roof_ignores_dormer_witness :
  exists with_dormer without_dormer,
    generate_archetype
      (__init__ 2 2.5 150 None None (Some 1%Z) None (Some 1%Z) [] [])
    = Ok with_dormer
    /\ generate_archetype
         (__init__ 2 2.5 150 None None (Some 1%Z) None (Some 0%Z) [] [])
       = Ok without_dormer
    /\ SingleFamilyDwelling._est_roof_area with_dormer
       = 1.33 * SingleFamilyDwelling._living_area_per_floor with_dormer
    /\ SingleFamilyDwelling._est_roof_area without_dormer
       = 1.33 * SingleFamilyDwelling._living_area_per_floor without_dormer.
Proof.
  destruct (generate_archetype
              (__init__ 2 2.5 150 None None (Some 1%Z) None (Some 1%Z)
                 [] []))
    as [s1 | e] eqn:E1; [| discriminate E1].
  destruct (generate_archetype
              (__init__ 2 2.5 150 None None (Some 1%Z) None (Some 0%Z)
                 [] []))
    as [s2 | e] eqn:E2; [| discriminate E2].
  exists s1, s2. split; [reflexivity |]. split; [reflexivity |]. split.
  - apply (unheated_attic_roof_ignores_dormer 2 2.5 150 None None
             (Some 1%Z) None (Some 1%Z) [] [] s1 eq_refl E1).
  - apply (unheated_attic_roof_ignores_dormer 2 2.5 150 None None
             (Some 1%Z) None (Some 0%Z) [] [] s2 eq_refl E2).
Defined.

(** X10.  A neighbour count without a table entry is not given a default
    either: [__init__] then assigns [est_extra_floor_area] but never
    [_est_extra_floor_area], and with at least one floor
    [generate_archetype] raises [AttributeError] when it reads that
    attribute for the facade area. *)
Theorem unknown_neighbour_count_raises_attribute_error :
  forall number_of_floors height_of_floors net_leased_area
         residential_layout neighbour_buildings attic cellar dormer
         outer_area window_area,
    (1 <= number_of_floors)%Z ->
    extra_floor_area (setter neighbour_buildings) = None ->
    generate_archetype
      (__init__ number_of_floors height_of_floors net_leased_area
         residential_layout neighbour_buildings attic cellar dormer
         outer_area window_area)
    = Raise (AttributeError "_est_extra_floor_area").
Proof.
  intros n height area layout neighbours attic cellar dormer oa wa Hn Hnone.
  pose proof (init_heated_floors_nonzero n height area layout neighbours
                attic cellar dormer oa wa Hn) as Eh.
  unfold generate_archetype, Py.div.
  match goal with
  | |- context [Qeq_bool ?h 0] => change h with (heated_floors
      (__init__ n height area layout neighbours attic cellar dormer oa wa))
  end.
  rewrite Eh, init_neighbours, Hnone. reflexivity.
Qed.

Lemma unknown_neighbour_count_raises_attribute_error_witness :
  generate_archetype
    (__init__ 1 2.5 120 None (Some 3%Z) None None None [] [])
  = Raise (AttributeError "_est_extra_floor_area").
Proof.
  apply unknown_neighbour_count_raises_attribute_error;
    [lia | reflexivity].
Defined.

(** * Properties of the project *)

Local Close Scope Q_scope.
Local Open Scope nat_scope.

(** ** The [name] setter *)




Lemma regex_sub_empty (value : string) :
  regex_sub value = EmptyString
  <-> (forall c, In c (list_ascii_of_string value) -> in_class c = false).
Proof.
  induction value as [| c0 rest IH]; simpl.
  - split; [intros _ c [] | reflexivity].
  - destruct (in_class c0) eqn:E.
    + split; [discriminate |].
      intros H. rewrite (H c0) in E by (left; reflexivity). discriminate E.
    + rewrite IH. split.
      * intros H c [<- | Hc]; [exact E | apply H, Hc].
      * intros H c Hc. apply H. right. exact Hc.
Qed.



(** X12.  The setter raises [IndexError] exactly when the value holds no
    character of the class, the empty string included; it raises nothing
    else. *)
Theorem name_setter_index_error_iff :
  forall self value,
    name_setter self value = Project.IndexError
    <-> (forall c,
            In c (list_ascii_of_string value) -> in_class c = false).
Proof.
  intros self value. rewrite <- regex_sub_empty.
  unfold name_setter. simpl.
  destruct (regex_sub value) as [| c kept].
  - split; reflexivity.
  - destruct (isdigit c); split; discriminate.
Qed.

Lemma name_setter_index_error_iff_witness :
  name_setter (Project.mk "Project" [] 2 false "AixLib") "-- (1) --"
  <> Project.IndexError
  /\ name_setter (Project.mk "Project" [] 2 false "AixLib") "-- (.) --"
     = Project.IndexError.
Proof.
  split.
  - intros H.
    apply (proj1 (name_setter_index_error_iff _ _)) with (c := "1"%char)
      in H.
    + discriminate H.
    + simpl. tauto.
  - apply (proj2 (name_setter_index_error_iff _ _)).
    simpl. intros c H.
    repeat (destruct H as [<- | H]; [reflexivity |]). destruct H.
Defined.



(** ** [calc_all_buildings] *)

Lemma nth_error_middle {A} (pre suf : list A) (a : A) :
  nth_error (pre ++ a :: suf) (List.length pre) = Some a.
Proof.
  induction pre as [| x pre IH]; simpl; [reflexivity | exact IH].
Qed.

Section CalcAllBuildingsProperties.

Variable Building : Type.
Variable calc_building_parameter :
  Z -> bool -> string -> Building -> Building * option exn.

Local Abbreviation call := (call_calc Building calc_building_parameter).
Local Abbreviation fine := (calculable Building calc_building_parameter).
Local Abbreviation fine_or_caught :=
  (calculable_or_caught Building calc_building_parameter).
Local Abbreviation heap_after :=
  (heap_after Building calc_building_parameter).

Lemma list_remove_middle (pre suf : list nat) (a : nat) :
  ~ In a pre -> list_remove a (pre ++ a :: suf) = pre ++ suf.
Proof.
  induction pre as [| x pre IH]; simpl; intros H.
  - rewrite Nat.eqb_refl. reflexivity.
  - destruct (Nat.eqb_spec x a) as [-> | _].
    + contradiction H. left. reflexivity.
    + rewrite IH; [reflexivity |]. intros Hin. apply H. right. exact Hin.
Qed.

Lemma existsb_eqb_In (a : nat) (l : list nat) :
  existsb (Nat.eqb a) l = true <-> In a l.
Proof.
  rewrite existsb_exists. split.
  - intros (x & Hx & E). apply Nat.eqb_eq in E. subst. exact Hx.
  - intros H. exists a. split; [exact H | apply Nat.eqb_refl].
Qed.

Lemma existsb_eqb_not_In (a : nat) (l : list nat) :
  ~ In a l -> existsb (Nat.eqb a) l = false.
Proof.
  intros H. destruct (existsb (Nat.eqb a) l) eqn:E; [| reflexivity].
  apply existsb_eqb_In in E. contradiction.
Qed.

(** A call on [a] after other buildings were calculated sees the state
    [a] had at the start. *)
Lemma call_elsewhere p l l' h h' (done : list nat) (a : nat) :
  heap_after (mk_world Building (Project.set_buildings l p) h) done h' ->
  ~ In a done ->
  snd (call a (mk_world Building (Project.set_buildings l' p) h'))
  = snd (call a (mk_world Building (Project.set_buildings l p) h))
  /\ heap Building
       (fst (call a (mk_world Building (Project.set_buildings l' p) h'))) a
     = heap Building
         (fst (call a (mk_world Building (Project.set_buildings l p) h))) a.
Proof.
  intros Hh Hn. unfold call_calc. simpl.
  rewrite (Hh a), (existsb_eqb_not_In a done Hn). simpl.
  destruct (calc_building_parameter _ _ _ (h a)) as [state raised]. simpl.
  rewrite Nat.eqb_refl. split; reflexivity.
Qed.

Lemma heap_after_step p l h h' (done : list nat) (a : nat) :
  heap_after (mk_world Building (Project.set_buildings l p) h) done h' ->
  ~ In a done ->
  forall l',
    heap_after (mk_world Building (Project.set_buildings l p) h)
      (a :: done)
      (heap Building
         (fst (call a (mk_world Building (Project.set_buildings l' p) h')))).
Proof.
  intros Hh Hn l' x.
  destruct (call_elsewhere p l l' h h' done a Hh Hn) as [_ Hstate].
  cbn [existsb].
  destruct (Nat.eqb x a) eqn:Exa; cbn [orb].
  - apply Nat.eqb_eq in Exa. subst x. exact Hstate.
  - rewrite <- (Hh x).
    unfold call_calc. simpl.
    destruct (calc_building_parameter _ _ _ (h' a)) as [state raised].
    simpl. rewrite Exa. reflexivity.
Qed.

Lemma calc_or_remove_step p (pre suf : list nat) (a : nat)
    (h : nat -> Building) :
  let w := mk_world Building (Project.set_buildings (pre ++ a :: suf) p) h in
  calc_or_remove Building calc_building_parameter (S (List.length pre)) w
  = match snd (call a w) with
    | None =>
        calc_or_remove Building calc_building_parameter (List.length pre)
          (mk_world Building (Project.set_buildings (pre ++ a :: suf) p)
             (heap Building (fst (call a w))))
    | Some ZeroDivisionError | Some TypeError =>
        calc_or_remove Building calc_building_parameter (List.length pre)
          (mk_world Building
             (Project.set_buildings (list_remove a (pre ++ a :: suf)) p)
             (heap Building (fst (call a w))))
    | Some e => Raise e
    end.
Proof.
  intros w. cbn [calc_or_remove]. unfold w at 1.
  cbn [project Project.buildings Project.set_buildings].
  rewrite nth_error_middle.
  unfold call_calc, w. simpl.
  destruct (calc_building_parameter _ _ _ (h a)) as [state raised].
  destruct raised as [[] |]; reflexivity.
Qed.

(** The second loop, from the end of [todo] down to its start. *)
Lemma calc_or_remove_down p (h0 : nat -> Building) (l0 : list nat) :
  forall (todo before suf done : list nat) (h : nat -> Building),
    NoDup (before ++ todo ++ done) ->
    heap_after (mk_world Building (Project.set_buildings l0 p) h0) done h ->
    forallb
      (fine_or_caught (mk_world Building (Project.set_buildings l0 p) h0))
      todo = true ->
    exists h',
      heap_after (mk_world Building (Project.set_buildings l0 p) h0)
        (todo ++ done) h'
      /\ calc_or_remove Building calc_building_parameter
           (List.length (before ++ todo))
           (mk_world Building
              (Project.set_buildings (before ++ todo ++ suf) p) h)
         = calc_or_remove Building calc_building_parameter
             (List.length before)
             (mk_world Building
                (Project.set_buildings
                   (before
                    ++ filter
                         (fine (mk_world Building
                                  (Project.set_buildings l0 p) h0))
                         todo
                    ++ suf) p) h').
Proof.
  induction todo as [| a todo IH] using rev_ind;
    intros before suf done h Hnd Hh Hall.
  - exists h. split; [exact Hh |]. simpl. rewrite app_nil_r. reflexivity.
  - rewrite forallb_app in Hall. apply andb_true_iff in Hall.
    destruct Hall as [Htodo Ha]. simpl in Ha. rewrite andb_true_r in Ha.
    rewrite <- !app_assoc in Hnd. simpl in Hnd.
    assert (Hnot : ~ In a ((before ++ todo) ++ done)).
    { apply NoDup_remove_2. rewrite <- app_assoc. exact Hnd. }
    assert (Hna : ~ In a done).
    { intros Hin. apply Hnot. apply in_or_app. right. exact Hin. }
    assert (Hnpre : ~ In a (before ++ todo)).
    { intros Hin. apply Hnot. apply in_or_app. left. exact Hin. }
    set (w0 := mk_world Building (Project.set_buildings l0 p) h0) in *.
    set (l := (before ++ todo) ++ a :: suf).
    set (w := mk_world Building (Project.set_buildings l p) h).
    destruct (call_elsewhere p l0 l h0 h done a Hh Hna) as [Hraised _].
    pose proof (heap_after_step p l0 h0 h done a Hh Hna l) as Hstep.
    fold w0 in Hraised, Hstep. fold w in Hraised, Hstep.
    assert (Estep :
              calc_or_remove Building calc_building_parameter
                (List.length (before ++ todo ++ [a]))
                (mk_world Building
                   (Project.set_buildings (before ++ (todo ++ [a]) ++ suf) p)
                   h)
              = match snd (call a w0) with
                | None =>
                    calc_or_remove Building calc_building_parameter
                      (List.length (before ++ todo))
                      (mk_world Building
                         (Project.set_buildings
                            (before ++ todo ++ a :: suf) p)
                         (heap Building (fst (call a w))))
                | Some ZeroDivisionError | Some TypeError =>
                    calc_or_remove Building calc_building_parameter
                      (List.length (before ++ todo))
                      (mk_world Building
                         (Project.set_buildings (before ++ todo ++ suf) p)
                         (heap Building (fst (call a w))))
                | Some e => Raise e
                end).
    { replace (before ++ (todo ++ [a]) ++ suf) with l
        by (unfold l; rewrite <- !app_assoc; reflexivity).
      replace (List.length (before ++ todo ++ [a]))
        with (S (List.length (before ++ todo)))
        by (rewrite !length_app; simpl; lia).
      unfold l. rewrite calc_or_remove_step.
      rewrite (list_remove_middle _ _ _ Hnpre). fold l. fold w.
      rewrite Hraised. unfold l. rewrite <- !app_assoc.
      reflexivity. }
    rewrite Estep. clear Estep.
    rewrite filter_app. cbn [filter].
    unfold calculable_or_caught in Ha. unfold calculable at 2.
    destruct (snd (call a w0)) as [e |].
    + assert (Hcaught : e = ZeroDivisionError \/ e = TypeError).
      { destruct e; try discriminate Ha; auto. }
      destruct (IH before suf (a :: done)
                  (heap Building (fst (call a w))) Hnd Hstep Htodo)
        as (h' & Hh' & Eloop).
      exists h'. split.
      * intros x. rewrite (Hh' x), <- app_assoc. reflexivity.
      * rewrite app_nil_r.
        destruct Hcaught as [-> | ->]; exact Eloop.
    + destruct (IH before (a :: suf) (a :: done)
                  (heap Building (fst (call a w))) Hnd Hstep Htodo)
        as (h' & Hh' & Eloop).
      exists h'. split.
      * intros x. rewrite (Hh' x), <- app_assoc. reflexivity.
      * rewrite Eloop, <- app_assoc. reflexivity.
Qed.

Lemma calc_or_raise_step p (pre suf : list nat) (a : nat)
    (h : nat -> Building) :
  let w := mk_world Building (Project.set_buildings (pre ++ a :: suf) p) h in
  calc_or_raise Building calc_building_parameter (S (List.length pre)) w
  = match snd (call a w) with
    | None =>
        calc_or_raise Building calc_building_parameter (List.length pre)
          (mk_world Building (Project.set_buildings (pre ++ a :: suf) p)
             (heap Building (fst (call a w))))
    | Some e => Raise e
    end.
Proof.
  intros w. cbn [calc_or_raise]. unfold w at 1.
  cbn [project Project.buildings Project.set_buildings].
  rewrite nth_error_middle.
  unfold call_calc, w. simpl.
  destruct (calc_building_parameter _ _ _ (h a)) as [state raised].
  destruct raised; reflexivity.
Qed.

(** The first loop, from the end of [todo] down to its start. *)
Lemma calc_or_raise_down p (h0 : nat -> Building) (l0 : list nat) :
  forall (todo before suf done : list nat) (h : nat -> Building),
    NoDup (before ++ todo ++ done) ->
    heap_after (mk_world Building (Project.set_buildings l0 p) h0) done h ->
    forallb (fine (mk_world Building (Project.set_buildings l0 p) h0)) todo
    = true ->
    exists h',
      heap_after (mk_world Building (Project.set_buildings l0 p) h0)
        (todo ++ done) h'
      /\ calc_or_raise Building calc_building_parameter
           (List.length (before ++ todo))
           (mk_world Building
              (Project.set_buildings (before ++ todo ++ suf) p) h)
         = calc_or_raise Building calc_building_parameter
             (List.length before)
             (mk_world Building
                (Project.set_buildings (before ++ todo ++ suf) p) h').
Proof.
  induction todo as [| a todo IH] using rev_ind;
    intros before suf done h Hnd Hh Hall.
  - exists h. split; [exact Hh |]. simpl. rewrite app_nil_r. reflexivity.
  - rewrite forallb_app in Hall. apply andb_true_iff in Hall.
    destruct Hall as [Htodo Ha]. simpl in Ha. rewrite andb_true_r in Ha.
    rewrite <- !app_assoc in Hnd. simpl in Hnd.
    assert (Hnot : ~ In a ((before ++ todo) ++ done)).
    { apply NoDup_remove_2. rewrite <- app_assoc. exact Hnd. }
    assert (Hna : ~ In a done).
    { intros Hin. apply Hnot. apply in_or_app. right. exact Hin. }
    set (w0 := mk_world Building (Project.set_buildings l0 p) h0) in *.
    set (l := (before ++ todo) ++ a :: suf).
    set (w := mk_world Building (Project.set_buildings l p) h).
    destruct (call_elsewhere p l0 l h0 h done a Hh Hna) as [Hraised _].
    pose proof (heap_after_step p l0 h0 h done a Hh Hna l) as Hstep.
    fold w0 in Hraised, Hstep. fold w in Hraised, Hstep.
    unfold calculable in Ha.
    destruct (snd (call a w0)) as [e |] eqn:Ea; [discriminate Ha |].
    destruct (IH before (a :: suf) (a :: done)
                (heap Building (fst (call a w))) Hnd Hstep Htodo)
      as (h' & Hh' & Eloop).
    exists h'. split.
    + intros x. rewrite (Hh' x), <- app_assoc. reflexivity.
    + replace (before ++ (todo ++ [a]) ++ suf) with l
        by (unfold l; rewrite <- !app_assoc; reflexivity).
      replace (List.length (before ++ todo ++ [a]))
        with (S (List.length (before ++ todo)))
        by (rewrite !length_app; simpl; lia).
      unfold l at 1. rewrite calc_or_raise_step. fold l. fold w.
      rewrite Hraised.
      replace l with (before ++ todo ++ a :: suf)
        by (unfold l; rewrite <- !app_assoc; reflexivity).
      exact Eloop.
Qed.

Lemma world_eta (w : world Building) :
  w = mk_world Building
        (Project.set_buildings
           (Project.buildings (project Building w)) (project Building w))
        (heap Building w).
Proof. destruct w as [[nm bs noe mw ul] h]. reflexivity. Qed.

Lemma heap_after_nil (w : world Building) :
  heap_after w [] (heap Building w).
Proof. intros a. reflexivity. Qed.

(** X14.  With [raise_errors] false, on a list of distinct buildings none
    of which raises anything but [ZeroDivisionError] or [TypeError],
    [calc_all_buildings] returns; the list then holds the buildings whose
    calculation raised nothing, in their order, every building of the
    list has been calculated once, on the state it had, and the name and
    the three calculation settings of the project are as before. *)
Theorem calc_all_buildings_removes_what_fails :
  forall w : world Building,
    NoDup (Project.buildings (project Building w)) ->
    forallb (fine_or_caught w) (Project.buildings (project Building w))
    = true ->
    exists w',
      calc_all_buildings Building calc_building_parameter false w = Ok w'
      /\ Project.buildings (project Building w')
         = filter (fine w) (Project.buildings (project Building w))
      /\ heap_after w (Project.buildings (project Building w))
           (heap Building w')
      /\ Project._name (project Building w')
         = Project._name (project Building w)
      /\ Project._number_of_elements_calc (project Building w')
         = Project._number_of_elements_calc (project Building w)
      /\ Project._merge_windows_calc (project Building w')
         = Project._merge_windows_calc (project Building w)
      /\ Project._used_library_calc (project Building w')
         = Project._used_library_calc (project Building w).
Proof.
  intros w Hnd Hall.
  set (l := Project.buildings (project Building w)) in *.
  set (p := project Building w) in *.
  assert (Hh0 : heap_after
                  (mk_world Building (Project.set_buildings l p)
                     (heap Building w))
                  [] (heap Building w)) by (intros a; reflexivity).
  destruct (calc_or_remove_down p (heap Building w) l l [] [] []
              (heap Building w))
    as (h' & Hh' & Eloop).
  - simpl. rewrite app_nil_r. exact Hnd.
  - exact Hh0.
  - unfold l, p. rewrite <- world_eta. exact Hall.
  - unfold l, p in *. rewrite <- world_eta in *.
    rewrite !app_nil_r in *. simpl in Eloop.
    eexists. split.
    + unfold calc_all_buildings. rewrite (world_eta w) at 2.
      exact Eloop.
    + simpl. repeat split. exact Hh'.
Qed.

(** X15.  With [raise_errors] true, on a list of distinct buildings:
    when no calculation raises, [calc_all_buildings] returns with the
    project as it was and every building calculated once; when a
    calculation raises and those of the buildings after it in the list do
    not, the call raises that exception: the one of the last failing
    building of the list. *)
Theorem calc_all_buildings_raises_the_last_failure :
  forall w : world Building,
    NoDup (Project.buildings (project Building w)) ->
    (forallb (fine w) (Project.buildings (project Building w)) = true ->
     exists w',
       calc_all_buildings Building calc_building_parameter true w = Ok w'
       /\ project Building w' = project Building w
       /\ heap_after w (Project.buildings (project Building w))
            (heap Building w'))
    /\ (forall before a after e,
           Project.buildings (project Building w) = before ++ a :: after ->
           forallb (fine w) after = true ->
           snd (call a w) = Some e ->
           calc_all_buildings Building calc_building_parameter true w
           = Raise e).
Proof.
  intros w Hnd.
  set (l := Project.buildings (project Building w)) in *.
  set (p := project Building w) in *.
  assert (Hh0 : heap_after
                  (mk_world Building (Project.set_buildings l p)
                     (heap Building w))
                  [] (heap Building w)) by (intros a; reflexivity).
  assert (Hw : mk_world Building (Project.set_buildings l p)
                 (heap Building w) = w)
    by (unfold l, p; symmetry; apply world_eta).
  split.
  - intros Hall.
    destruct (calc_or_raise_down p (heap Building w) l l [] [] []
                (heap Building w))
      as (h' & Hh' & Eloop).
    + simpl. rewrite app_nil_r. exact Hnd.
    + exact Hh0.
    + rewrite Hw. exact Hall.
    + rewrite Hw, !app_nil_r in *. simpl in Eloop.
      eexists. split.
      * unfold calc_all_buildings. fold l. rewrite <- Hw at 2.
        exact Eloop.
      * simpl. split; [| exact Hh'].
        unfold l, p. destruct w as [[nm bs noe mw ul] h]. reflexivity.
  - intros before a after e El Hall Ha.
    destruct (calc_or_raise_down p (heap Building w) l after
                (before ++ [a]) [] [] (heap Building w))
      as (h' & Hh' & Eloop).
    + rewrite app_nil_r, <- app_assoc. simpl. rewrite <- El. exact Hnd.
    + exact Hh0.
    + rewrite Hw. exact Hall.
    + rewrite Hw, !app_nil_r in *.
      assert (Hna : ~ In a after).
      { rewrite El in Hnd. apply NoDup_remove_2 in Hnd.
        intros Hin. apply Hnd. apply in_or_app. right. exact Hin. }
      destruct (call_elsewhere p l (before ++ a :: after)
                  (heap Building w) h' after a) as [Hraised _].
      * rewrite Hw. exact Hh'.
      * exact Hna.
      * rewrite Hw in Hraised.
        unfold calc_all_buildings. rewrite <- Hw at 2.
        change (Project.buildings (project Building w)) with l.
        rewrite El.
        replace (before ++ a :: after) with ((before ++ [a]) ++ after)
          by (rewrite <- app_assoc; reflexivity).
        rewrite Eloop.
        replace (List.length (before ++ [a])) with (S (List.length before))
          by (rewrite length_app; simpl; lia).
        replace ((before ++ [a]) ++ after) with (before ++ a :: after)
          by (rewrite <- app_assoc; reflexivity).
        rewrite calc_or_raise_step, Hraised, Ha. reflexivity.
Qed.

(** X16.  With [raise_errors] false only [ZeroDivisionError] and
    [TypeError] are caught: when the calculation of a building raises
    another exception, and those of the buildings after it in the list
    raise nothing or one of the two, [calc_all_buildings] raises that
    exception. *)
Theorem calc_all_buildings_lets_other_exceptions_through :
  forall (w : world Building) before a after e,
    NoDup (Project.buildings (project Building w)) ->
    Project.buildings (project Building w) = before ++ a :: after ->
    forallb (fine_or_caught w) after = true ->
    snd (call a w) = Some e ->
    e <> ZeroDivisionError ->
    e <> TypeError ->
    calc_all_buildings Building calc_building_parameter false w = Raise e.
Proof.
  intros w before a after e Hnd El Hall Ha Hz Ht.
  set (l := Project.buildings (project Building w)) in *.
  set (p := project Building w) in *.
  assert (Hh0 : heap_after
                  (mk_world Building (Project.set_buildings l p)
                     (heap Building w))
                  [] (heap Building w)) by (intros x; reflexivity).
  assert (Hw : mk_world Building (Project.set_buildings l p)
                 (heap Building w) = w)
    by (unfold l, p; symmetry; apply world_eta).
  destruct (calc_or_remove_down p (heap Building w) l after
              (before ++ [a]) [] [] (heap Building w))
    as (h' & Hh' & Eloop).
  - rewrite app_nil_r, <- app_assoc. simpl. rewrite <- El. exact Hnd.
  - exact Hh0.
  - rewrite Hw. exact Hall.
  - rewrite Hw, !app_nil_r in *.
    assert (Hna : ~ In a after).
    { rewrite El in Hnd. apply NoDup_remove_2 in Hnd.
      intros Hin. apply Hnd. apply in_or_app. right. exact Hin. }
    destruct (call_elsewhere p l
                (before ++ a :: filter (fine w) after)
                (heap Building w) h' after a) as [Hraised _].
    + rewrite Hw. exact Hh'.
    + exact Hna.
    + rewrite Hw in Hraised.
      unfold calc_all_buildings. rewrite <- Hw at 2.
      change (Project.buildings (project Building w)) with l.
      rewrite El.
      replace (before ++ a :: after) with ((before ++ [a]) ++ after)
        by (rewrite <- app_assoc; reflexivity).
      rewrite Eloop.
      replace (List.length (before ++ [a])) with (S (List.length before))
        by (rewrite length_app; simpl; lia).
      replace ((before ++ [a]) ++ filter (fine w) after)
        with (before ++ a :: filter (fine w) after)
        by (rewrite <- app_assoc; reflexivity).
      rewrite calc_or_remove_step, Hraised, Ha.
      destruct e; try reflexivity; contradiction.
Qed.

End CalcAllBuildingsProperties.

Lemma example_world_distinct :
  NoDup (Project.buildings (project Q example_world)).
Proof.
  simpl. repeat constructor; simpl; intros H;
    repeat (destruct H as [H | H]; [discriminate H |]); exact H.
Qed.

Lemma calc_all_buildings_removes_what_fails_witness :
  exists w',
    calc_all_buildings Q example_calc false example_world = Ok w'
    /\ Project.buildings (project Q w') = [0; 2].
Proof.
  destruct (calc_all_buildings_removes_what_fails Q example_calc
              example_world example_world_distinct eq_refl)
    as (w' & E & Hb & _).
  exists w'. split; [exact E |]. rewrite Hb. reflexivity.
Defined.

Lemma calc_all_buildings_raises_the_last_failure_witness :
  calc_all_buildings Q example_calc true example_world
  = Raise ZeroDivisionError.
Proof.
  apply (proj2 (calc_all_buildings_raises_the_last_failure Q example_calc
                  example_world example_world_distinct)
           [0] 1 [2]); reflexivity.
Defined.

Lemma calc_all_buildings_lets_other_exceptions_through_witness :
  calc_all_buildings Q
    (fun _ _ _ area =>
       if Qeq_bool area 0 then (area, Some (KeyError (KStr "area")))
       else (area, None))
    false example_world
  = Raise (KeyError (KStr "area")).
Proof.
  apply (calc_all_buildings_lets_other_exceptions_through Q _
           example_world [0] 1 [2]);
    try reflexivity; try discriminate.
  exact example_world_distinct.
Defined.
